(** * AI Background Perceptual Load Task (v4): a shallow embedding

    The experiment script [ai_background_load_task_v4.py] is embedded as
    Rocq functions.  Randomness ([random.choice], [random.sample],
    [random.shuffle], [random.uniform]) is threaded through an explicit
    random source; the keyboard and the clock are an explicit environment
    of ticks; the window, the result list and the file store are explicit
    state.  A computation that returns no value (an uncaught Python
    exception, or a loop that never ends) is the [None] of the random
    monad; [core.quit()] is the [Quit] outcome of the script monad. *)

From Stdlib Require Import QArith Lqa.
From stdpp Require Import base option list strings gmap.

Local Open Scope nat_scope.

(* ================================================================== *)
(** * Part I: the program                                              *)
(* ================================================================== *)

(** ** The [random] module

    A random source is the list of the raw draws still to come; an
    exhausted source keeps answering 0.  Every theorem below quantifies
    over all sources.  [None] is: no value is returned, because an
    exception is raised ([IndexError], [ValueError]) or because a loop
    never ends (the redraw loop of [sample] on a source that keeps
    answering a selected index). *)

Module Random.

Definition Rand (A : Type) : Type := list nat -> option (A * list nat).

Definition ret {A} (a : A) : Rand A := fun g => Some (a, g).

Definition bind {A B} (m : Rand A) (k : A -> Rand B) : Rand B :=
  fun g => match m g with
           | Some (a, g') => k a g'
           | None => None
           end.

Definition raise {A} : Rand A := fun _ => None.

(** [_randbelow(n)]: an integer in [range(n)]. *)
Definition randbelow (n : nat) : Rand nat :=
  fun g => match g with
           | [] => Some (0, [])
           | h :: g' => Some (h mod n, g')
           end.

(** [random()]: a 53-bit fraction in [[0, 1)]. *)
Definition random : Rand Q :=
  fun g => match g with
           | [] => Some (0%Q, [])
           | h :: g' => Some (((Z.of_nat h mod 2 ^ 53) # (2 ^ 53))%Q, g')
           end.

(** [uniform(a, b)] is [a + (b - a) * random()]. *)
Definition uniform (a b : Q) : Rand Q :=
  bind random (fun r => ret (a + (b - a) * r)%Q).

(** [choice(seq)]: [IndexError] on an empty sequence, otherwise
    [seq[_randbelow(len(seq))]]. *)
Definition choice {A} (seq : list A) : Rand A :=
  match seq with
  | [] => raise
  | _ :: _ =>
      bind (randbelow (length seq)) (fun i =>
      match seq !! i with
      | Some x => ret x
      | None => raise
      end)
  end.

(** The selection loop of [sample] when [n <= setsize]: [pool] is the
    live prefix of the library's pool; the chosen slot is refilled with
    the last live item. *)
Fixpoint sample_loop {A} (k : nat) (pool : list A) : Rand (list A) :=
  match k with
  | 0 => ret []
  | S k' =>
      bind (randbelow (length pool)) (fun j =>
      match pool !! j, pool !! (length pool - 1) with
      | Some x, Some y =>
          bind (sample_loop k' (take (length pool - 1) (<[j:=y]> pool)))
               (fun rest => ret (x :: rest))
      | _, _ => raise
      end)
  end.

(** [while j in selected: j = randbelow(n)].  Every turn takes one more
    draw; on a source that is used up the draw is 0 for ever, so the loop
    ends there only if 0 is not selected yet. *)
Fixpoint redraw (n : nat) (selected : gset nat) (j : nat) (g : list nat)
  : option (nat * list nat) :=
  if decide (j ∈ selected) then
    match g with
    | [] => if decide (0 ∈ selected) then None else Some (0, [])
    | h :: g' => redraw n selected (h mod n) g'
    end
  else Some (j, g).

(** The selection loop of [sample] when [n > setsize]: the indices
    selected so far are kept in a set and a selected index is redrawn. *)
Fixpoint sample_selected {A} (population : list A) (k : nat)
    (selected : gset nat) : Rand (list A) :=
  match k with
  | 0 => ret []
  | S k' =>
      bind (randbelow (length population)) (fun j =>
      bind (redraw (length population) selected j) (fun j =>
      match population !! j with
      | Some x =>
          bind (sample_selected population k' ({[j]} ∪ selected))
               (fun rest => ret (x :: rest))
      | None => raise
      end))
  end.

(** [setsize = 21; if k > 5: setsize += 4 ** _ceil(_log(k * 3, 4))] *)
Definition setsize (k : nat) : nat :=
  21 + (if 5 <? k then 4 ^ ((Nat.log2_up (k * 3) + 1) / 2) else 0).

(** [sample(population, k)]: [ValueError] unless [0 <= k <= n]; then [k]
    draws without replacement, from a pool if [n <= setsize] and with a
    set of selected indices otherwise. *)
Definition sample {A} (population : list A) (k : nat) : Rand (list A) :=
  let n := length population in
  if k <=? n then
    if n <=? setsize k then sample_loop k population
    else sample_selected population k ∅
  else raise.

(** [x[i], x[j] = x[j], x[i]], with [IndexError] out of range. *)
Definition swap {A} (i j : nat) (x : list A) : option (list A) :=
  match x !! i, x !! j with
  | Some xi, Some xj => Some (<[j:=xi]> (<[i:=xj]> x))
  | _, _ => None
  end.

(** [for i in reversed(range(1, len(x))): j = randbelow(i + 1); swap]:
    [shuffle_loop i x] runs the iterations [i, i-1, ..., 1]. *)
Fixpoint shuffle_loop {A} (i : nat) (x : list A) : Rand (list A) :=
  match i with
  | 0 => ret x
  | S i' =>
      bind (randbelow (i + 1)) (fun j =>
      match swap i j x with
      | Some x' => shuffle_loop i' x'
      | None => raise
      end)
  end.

(** [shuffle(x)]; the list shuffled in place is returned. *)
Definition shuffle {A} (x : list A) : Rand (list A) :=
  shuffle_loop (length x - 1) x.

End Random.

Import Random.

Declare Scope rand_scope.
Delimit Scope rand_scope with rand.
Notation "'let*' x ':=' m 'in' k" := (bind m (fun x => k))
  (at level 10, x name, m at level 200, k at level 200) : rand_scope.
Local Open Scope rand_scope.

(** ** Python strings *)

(** Iterating a string yields its one-character strings. *)
Fixpoint iter_str (s : string) : list string :=
  match s with
  | EmptyString => []
  | String c s' => String c EmptyString :: iter_str s'
  end.

(** [s * n] *)
Fixpoint str_mul (s : string) (n : nat) : string :=
  match n with
  | 0 => EmptyString
  | S n' => s +:+ str_mul s n'
  end.

(** [sep.join(l)] *)
Definition join (sep : string) (l : list string) : string :=
  String.concat sep l.

(** [s.count(c)] for a one-character [c]. *)
Definition count (c : string) (s : string) : nat :=
  length (filter (fun l => l = c) (iter_str s)).

(** ** Letter sets (lines 127-129) *)

Definition target_letter : string := "X".

Definition non_target_letters : list string :=
  filter (fun l => l <> target_letter) (iter_str "ABCDEFGHIJKLMNOPQRSTUVWXYZ").

(** ** [make_letter_string] (lines 164-189) *)

Definition make_letter_string (load_type : string) (target_present : bool)
  : Rand string :=
  if decide (load_type = "low") then
    if target_present then
      ret (str_mul target_letter 6)
    else
      let* letter := choice non_target_letters in
      ret (str_mul letter 6)
  else
    let letters : list string := [] in
    let* letters :=
      (if target_present then
         let letters := letters ++ [target_letter] in
         let* chosen := sample non_target_letters 5 in
         ret (letters ++ chosen)
       else
         let* chosen := sample non_target_letters 6 in
         ret (letters ++ chosen)) in
    let* letters := shuffle letters in
    ret (join "" letters).

(** ** [get_background_image] (lines 192-197) *)

Definition get_background_image (bgImages : gmap string (list string))
    (bg_type : string) : Rand (option string) :=
  let files := default [] (bgImages !! bg_type) in
  match files with
  | [] => ret None
  | _ :: _ => let* p := choice files in ret (Some p)
  end.

(** ** Trial structure (lines 125-151) *)

Module Trial.
Record t : Type := mk {
  load : string;
  background_type : string;
  target_present : bool
}.
End Trial.

Definition loads : list string := ["low"; "high"].

Definition backgroundTypes : list string := ["ai"; "internet"; "paper"; "solid"].

(** A [for x in xs:] loop whose body updates the loop state [s]. *)
Fixpoint for_each {A S} (xs : list A) (body : A -> S -> Rand S) (s : S)
  : Rand S :=
  match xs with
  | [] => ret s
  | x :: xs' => let* s' := body x s in for_each xs' body s'
  end.

(** The body of the inner loop: one cell of five trials. *)
Definition append_cell (load bg_type : string) (trials : list Trial.t)
  : Rand (list Trial.t) :=
  let* cell_trials := shuffle [true; true; true; false; false] in
  for_each cell_trials
    (fun present trials => ret (trials ++ [Trial.mk load bg_type present]))
    trials.

Definition generate_trials : Rand (list Trial.t) :=
  let* trials :=
    for_each loads (fun load trials =>
      for_each backgroundTypes (fun bg_type trials =>
        append_cell load bg_type trials) trials) [] in
  shuffle trials.

(** ** Keyboard, clock and screen

    Times are rationals (seconds).  A [tick] is one evaluation of a
    [while trial_clock.getTime() < ...] test: the clock reading, and the
    key presses (name, time stamp on the trial clock) that reach the event
    buffer while the loop body runs.  A loop whose ticks are used up has
    passed its deadline. *)

Module Tick.
Record t : Type := mk {
  clock : Q;
  pressed : list (string * Q)
}.
End Tick.

Module Env.
Record t : Type := mk {
  fixation : list Tick.t;   (* ticks of the fixation loop *)
  stimulus : list Tick.t    (* ticks after the trial clock is reset at onset *)
}.
Definition silent : t := mk [] [].
End Env.

Definition Qltb (a b : Q) : bool := negb (Qle_bool b a).

(** [event.getKeys(keyList=..., timeStamped=trial_clock)]: the buffered
    presses of the listed keys, which leave the buffer. *)
Definition getKeys (keyList : list string) (buffer : list (string * Q))
  : list (string * Q) * list (string * Q) :=
  (filter (fun k => k.1 ∈ keyList) buffer,
   filter (fun k => k.1 ∉ keyList) buffer).

(** What one [win.flip()] shows: the window colour and the stimuli drawn
    since the previous flip. *)
Inductive stim : Type :=
  | FixationCross
  | BgImage (image : option string)
  | LetterStim (text : string).

Module Frame.
Record t : Type := mk {
  fill : list Z;
  drawn : list stim
}.
End Frame.

(** The stimulus objects the trial loop assigns to. *)
Module Display.
Record t : Type := mk {
  win_color : list Z;          (* win.color *)
  bg_image : option string;    (* bg_image.image *)
  letter_stim : string         (* letter_stim.text *)
}.
(** Lines 37-42, 52, 55. *)
Definition initial : t := mk [0; 0; 0]%Z None "".
End Display.

(** ** Trial records (lines 312-323) *)

Inductive value : Type :=
  | VStr (s : string)
  | VInt (n : nat)
  | VFloat (x : Q).

Module Row.
Record t : Type := mk {
  participant : string;
  session : string;
  trial_index : nat;
  load : string;
  background_type : string;
  target_present : nat;
  letters : string;
  response_key : string;
  rt : value;
  correct : nat
}.
End Row.

Module State.
Record t : Type := mk {
  display : Display.t;
  key_buffer : list (string * Q);
  results : list Row.t;
  screen : list (list Frame.t)   (* the frames flipped, one list per trial begun *)
}.
Definition initial : t := mk Display.initial [] [] [].
End State.

(** ** The phases of a trial (lines 240-293) *)

(** [while trial_clock.getTime() < fixation_time: fixation.draw(); win.flip()] *)
Fixpoint fixation_loop (fixation_time : Q) (color : list Z)
    (ticks : list Tick.t) (buffer : list (string * Q))
  : list Frame.t * list (string * Q) :=
  match ticks with
  | [] => ([], buffer)
  | t :: ticks' =>
      if Qltb (Tick.clock t) fixation_time then
        let '(frames, buffer') :=
          fixation_loop fixation_time color ticks' (buffer ++ Tick.pressed t) in
        (Frame.mk color [FixationCross] :: frames, buffer')
      else ([], buffer)
  end.

(** The local variables of the two response loops. *)
Module Poll.
Record t : Type := mk {
  ticks : list Tick.t;                 (* ticks not yet consumed *)
  buffer : list (string * Q);          (* the event buffer *)
  response : option (string * Q);      (* (response_key, rt) *)
  frames : list Frame.t                (* frames flipped so far *)
}.
End Poll.

(** [if keys and response_key is None: response_key, rt = keys[0]] *)
Definition record_response (keys : list (string * Q))
    (response : option (string * Q)) : option (string * Q) :=
  match keys, response with
  | k :: _, None => Some k
  | _, _ => response
  end.

Definition response_keys : list string := ["z"; "m"; "escape"].

(** [if img_path is not None: bg_image.draw()] *)
Definition draw_background (d : Display.t) (img_path : option string)
  : list stim :=
  match img_path with
  | Some _ => [BgImage (Display.bg_image d)]
  | None => []
  end.

(** Part 1 (lines 274-282): 200 ms with letters and background. *)
Fixpoint part1 (d : Display.t) (img_path : option string)
    (ticks : list Tick.t) (buffer : list (string * Q))
    (response : option (string * Q)) (frames : list Frame.t) : Poll.t :=
  match ticks with
  | [] => Poll.mk [] buffer response frames
  | t :: ticks' =>
      if Qltb (Tick.clock t) 0.2 then
        let frame := Frame.mk (Display.win_color d)
                       (draw_background d img_path
                          ++ [LetterStim (Display.letter_stim d)]) in
        let '(keys, buffer') :=
          getKeys response_keys (buffer ++ Tick.pressed t) in
        part1 d img_path ticks' buffer' (record_response keys response)
              (frames ++ [frame])
      else Poll.mk ticks buffer response frames
  end.

Definition max_dur : Q := 1.5.

(** Part 2 (lines 286-293): background only, until a response or 1.5 s. *)
Fixpoint part2 (d : Display.t) (img_path : option string)
    (ticks : list Tick.t) (buffer : list (string * Q))
    (response : option (string * Q)) (frames : list Frame.t) : Poll.t :=
  match ticks with
  | [] => Poll.mk [] buffer response frames
  | t :: ticks' =>
      if Qltb (Tick.clock t) max_dur && bool_decide (response = None) then
        let frame := Frame.mk (Display.win_color d)
                       (draw_background d img_path) in
        let '(keys, buffer') :=
          getKeys response_keys (buffer ++ Tick.pressed t) in
        part2 d img_path ticks' buffer' (record_response keys response)
              (frames ++ [frame])
      else Poll.mk ticks buffer response frames
  end.

(** Both response loops, from [event.clearEvents()] and the clock reset. *)
Definition present (d : Display.t) (img_path : option string)
    (ticks : list Tick.t) : Poll.t :=
  let p := part1 d img_path ticks [] None [] in
  part2 d img_path (Poll.ticks p) (Poll.buffer p) (Poll.response p)
        (Poll.frames p).

(** ** Scoring (lines 299-309) *)

Definition determine_correct (target_present : bool)
    (response_key : option string) : nat :=
  match response_key with
  | None => 0
  | Some key =>
      if target_present && bool_decide (key = "z") then 1
      else if negb target_present && bool_decide (key = "m") then 1
      else 0
  end.

(** ** The main trial loop (lines 232-323) *)

Module ExpInfo.
Record t : Type := mk {
  Participant : string;
  Session : string
}.
End ExpInfo.

Inductive flow : Type := Continue | Break.

(** The body of [for i, trial in enumerate(trials, start=1)]. *)
Definition trial_body (exp_info : ExpInfo.t)
    (bgImages : gmap string (list string))
    (i : nat) (trial : Trial.t) (env : Env.t) (st : State.t)
  : Rand (flow * State.t) :=
  let load_type := Trial.load trial in
  let bg_type := Trial.background_type trial in
  let target_present := Trial.target_present trial in
  let d := State.display st in
  (* fixation *)
  let* jitter := uniform 3.5 5.5 in
  let fixation_time := jitter in
  let '(fix_frames, _) :=
    fixation_loop fixation_time (Display.win_color d) (Env.fixation env)
                  (State.key_buffer st) in
  (* choose background image *)
  let* img_path := get_background_image bgImages bg_type in
  let d :=
    match img_path with
    | Some p => Display.mk (Display.win_color d) (Some p) (Display.letter_stim d)
    | None => Display.mk [0; 0; 0]%Z None (Display.letter_stim d)
    end in
  (* letter string *)
  let* letters := make_letter_string load_type target_present in
  let d := Display.mk (Display.win_color d) (Display.bg_image d) letters in
  (* present background + letters; the buffer is cleared first *)
  let p := present d img_path (Env.stimulus env) in
  let response_key := fst <$> Poll.response p in
  let rt := snd <$> Poll.response p in
  let screen := State.screen st ++ [fix_frames ++ Poll.frames p] in
  if bool_decide (response_key = Some "escape") then
    ret (Break, State.mk d (Poll.buffer p) (State.results st) screen)
  else
    let correct := determine_correct target_present response_key in
    let row :=
      Row.mk (ExpInfo.Participant exp_info) (ExpInfo.Session exp_info) i
             load_type bg_type (if target_present then 1 else 0) letters
             (default "" response_key)
             (match rt with Some x => VFloat x | None => VStr "" end)
             correct in
    ret (Continue,
         State.mk d (Poll.buffer p) (State.results st ++ [row]) screen).

Fixpoint trial_loop (exp_info : ExpInfo.t)
    (bgImages : gmap string (list string))
    (i : nat) (trials : list Trial.t) (envs : list Env.t) (st : State.t)
  : Rand State.t :=
  match trials with
  | [] => ret st
  | trial :: trials' =>
      let* r := trial_body exp_info bgImages i trial (hd Env.silent envs) st in
      match r with
      | (Break, st') => ret st'
      | (Continue, st') =>
          trial_loop exp_info bgImages (S i) trials' (tl envs) st'
      end
  end.

(** ** The script from top to bottom

    [core.quit()] ends the process (it is what lines 30-31 and 221-223
    rely on to stop the run): statements after it are not executed. *)

Inductive outcome (A : Type) : Type :=
  | Done (a : A)
  | Quit          (* the process was ended by core.quit() *)
  | Raised.       (* no value: an uncaught exception, or a loop without end *)
Arguments Done {A} a.
Arguments Quit {A}.
Arguments Raised {A}.

Module World.
Record t : Type := mk {
  rng : list nat;
  files : gmap string (list (list value))   (* path -> rows of cells *)
}.
End World.

Definition Proc (A : Type) : Type := World.t -> outcome A * World.t.

Definition pret {A} (a : A) : Proc A := fun w => (Done a, w).

Definition pbind {A B} (m : Proc A) (k : A -> Proc B) : Proc B :=
  fun w => match m w with
           | (Done a, w') => k a w'
           | (Quit, w') => (Quit, w')
           | (Raised, w') => (Raised, w')
           end.

Definition core_quit {A} : Proc A := fun w => (Quit, w).

(** A computation that only uses the random source. *)
Definition lift {A} (m : Rand A) : Proc A :=
  fun w => match m (World.rng w) with
           | Some (a, g') => (Done a, World.mk g' (World.files w))
           | None => (Raised, w)
           end.

Notation "'do*' x ':=' m 'in' k" := (pbind m (fun x => k))
  (at level 10, x name, m at level 200, k at level 200) : rand_scope.

(** What the outside world supplies to one run of the script. *)
Module Run.
Record t : Type := mk {
  dlg_OK : bool;                            (* the dialog was confirmed *)
  exp_info : ExpInfo.t;
  bgImages : gmap string (list string);     (* the scanned folders *)
  timestamp : string;                       (* datetime.now() formatted *)
  start_keys : list string;                 (* what event.waitKeys returns *)
  envs : list Env.t                         (* clock and keyboard, per trial *)
}.
End Run.

Definition path_join (a b : string) : string := a +:+ "/" +:+ b.

Definition out_dir : string := "data".

Definition fieldnames : list string :=
  ["participant"; "session"; "trial_index";
   "load"; "background_type"; "target_present";
   "letters"; "response_key"; "rt"; "correct"].

(** [writer.writerow(row)]: the cells of [row] in the order of [fieldnames]. *)
Definition writerow (row : Row.t) : list value :=
  [VStr (Row.participant row); VStr (Row.session row);
   VInt (Row.trial_index row);
   VStr (Row.load row); VStr (Row.background_type row);
   VInt (Row.target_present row);
   VStr (Row.letters row); VStr (Row.response_key row); Row.rt row;
   VInt (Row.correct row)].

(** The save block (lines 341-353). *)
Definition save_results (filepath : string) (results : list Row.t)
  : Proc unit :=
  fun w =>
    (Done tt,
     World.mk (World.rng w)
       (<[filepath := (VStr <$> fieldnames) :: (writerow <$> results)]>
          (World.files w))).

Definition filepath (r : Run.t) : string :=
  let filename_base :=
    "ai_background_load_results_v4_"
      +:+ ExpInfo.Participant (Run.exp_info r) +:+ "_"
      +:+ Run.timestamp r +:+ ".csv" in
  path_join out_dir filename_base.

(** The statements of the script that touch the trial list, the results
    and the file store, in source order. *)
Definition main (r : Run.t) : Proc unit :=
  (* lines 29-31 *)
  do* _ := (if negb (Run.dlg_OK r) then core_quit else pret tt) in
  (* lines 134-151 *)
  do* trials := lift generate_trials in
  (* lines 217-223 *)
  let keys := Run.start_keys r in
  do* _ := (if bool_decide ("escape" ∈ keys) then core_quit else pret tt) in
  (* lines 232-323 *)
  do* st := lift (trial_loop (Run.exp_info r) (Run.bgImages r) 1 trials
                             (Run.envs r) State.initial) in
  let results := State.results st in
  (* lines 329-334: thanks, win.close(), core.quit() *)
  do* _ := (core_quit : Proc unit) in
  (* lines 341-353 *)
  save_results (filepath r) results.

(** ** Background images loading (lines 93-112)

    The folders are a map from a folder path to what [os.listdir] returns
    for it; [os.path.isdir] holds of exactly the paths in the map.  File
    names are ASCII. *)

(** [c.lower()] on one character. *)
Definition lower_ascii (c : Ascii.ascii) : Ascii.ascii :=
  let n := Ascii.nat_of_ascii c in
  if (65 <=? n) && (n <=? 90) then Ascii.ascii_of_nat (n + 32) else c.

(** [s.lower()] *)
Fixpoint lower (s : string) : string :=
  match s with
  | EmptyString => EmptyString
  | String c s' => String (lower_ascii c) (lower s')
  end.

(** [s.endswith(suffix)]: some tail of [s] is [suffix]. *)
Fixpoint endswith (s suffix : string) : bool :=
  bool_decide (s = suffix)
  || match s with
     | EmptyString => false
     | String _ s' => endswith s' suffix
     end.

Definition image_extensions : list string := [".png"; ".jpg"; ".jpeg"; ".bmp"].

(** [f.lower().endswith((".png", ".jpg", ".jpeg", ".bmp"))] *)
Definition is_image_file (f : string) : bool :=
  existsb (endswith (lower f)) image_extensions.

Definition bgFolder : string := "backgrounds".

(** The two warnings the loading loop prints. *)
Inductive warning : Type :=
  | FolderNotFound (bg_type folder_path : string)
  | NoImageFiles (bg_type folder_path : string).

Definition warned_type (w : warning) : string :=
  match w with
  | FolderNotFound bg_type _ => bg_type
  | NoImageFiles bg_type _ => bg_type
  end.

(** One iteration of [for bg_type in backgroundTypes:]; the loop state is
    [bgImages] and what has been printed. *)
Definition load_folder (dirs : gmap string (list string))
    (acc : gmap string (list string) * list warning) (bg_type : string)
  : gmap string (list string) * list warning :=
  let '(bgImages, printed) := acc in
  let folder_path := path_join bgFolder bg_type in
  match dirs !! folder_path with
  | None =>
      (<[bg_type := []]> bgImages,
       printed ++ [FolderNotFound bg_type folder_path])
  | Some listing =>
      let files :=
        path_join folder_path
          <$> filter (fun f => is_image_file f = true) listing in
      let printed :=
        if decide (length files = 0)
        then printed ++ [NoImageFiles bg_type folder_path]
        else printed in
      (<[bg_type := files]> bgImages, printed)
  end.

Definition load_backgrounds (dirs : gmap string (list string))
  : gmap string (list string) * list warning :=
  foldl (load_folder dirs) (∅, []) backgroundTypes.

(** ** Vocabulary of the properties *)

(** A string of exactly one character, as iteration over a string yields. *)
Definition one_char (s : string) : Prop := iter_str s = [s].

#[local] Instance one_char_dec s : Decision (one_char s).
Proof. unfold one_char. apply _. Defined.

(** What [make_letter_string] returns.

    Low load: one letter six times (the target if present, a non-target
    otherwise).  High load: a rearrangement of the target (if present)
    and distinct non-targets. *)

Inductive letter_string_shape (load_type : string) (target_present : bool)
    (s : string) : Prop :=
  | shape_low (letter : string) :
      load_type = "low" ->
      one_char letter ->
      (if target_present then letter = target_letter
       else letter <> target_letter) ->
      iter_str s = replicate 6 letter ->
      letter_string_shape load_type target_present s
  | shape_high (chosen : list string) :
      load_type <> "low" ->
      NoDup chosen ->
      target_letter ∉ chosen ->
      length chosen = (if target_present then 5 else 6) ->
      iter_str s ≡ₚ (if target_present then target_letter :: chosen
                     else chosen) ->
      letter_string_shape load_type target_present s.

(** The factorial design before any shuffling: for every load and every
    background type, three target-present and two target-absent trials. *)
Definition cell (load bg_type : string) (flags : list bool) : list Trial.t :=
  Trial.mk load bg_type <$> flags.

Definition design : list Trial.t :=
  flat_map (fun load =>
    flat_map (fun bg_type => cell load bg_type [true; true; true; false; false])
             backgroundTypes) loads.

Definition in_cell (load bg_type : string) (t : Trial.t) : Prop :=
  Trial.load t = load /\ Trial.background_type t = bg_type.

#[local] Instance in_cell_dec load bg_type t : Decision (in_cell load bg_type t).
Proof. unfold in_cell. apply _. Defined.

Definition cell_size (load bg_type : string) (trials : list Trial.t) : nat :=
  length (filter (in_cell load bg_type) trials).

Definition cell_count (load bg_type : string) (present : bool)
    (trials : list Trial.t) : nat :=
  length (filter (fun t => in_cell load bg_type t
                           /\ Trial.target_present t = present) trials).

(** The response the two polling loops record from the ticks after
    stimulus onset (it depends on nothing else). *)
Definition recorded_response (ticks : list Tick.t) : option (string * Q) :=
  Poll.response (present Display.initial None ticks).

(** The cancel key reaches the event buffer at some tick of the trial. *)
Definition cancel_pressed (env : Env.t) : Prop :=
  Exists (fun t => "escape" ∈ (fst <$> Tick.pressed t))
         (Env.fixation env ++ Env.stimulus env).

(** The asset pool of a trial's background type. *)
Definition pool_of (bgImages : gmap string (list string)) (trial : Trial.t)
  : list string :=
  default [] (bgImages !! Trial.background_type trial).





(** The indices below [n] that the draws of a source select. *)
Definition drawn_indices (n : nat) (g : list nat) : gset nat :=
  list_to_set ((fun h => h mod n) <$> g).

(** The source holds draws for five different non-target letters: the
    redraw loop of [sample(non_target_letters, 5)] comes to an end. *)
Definition five_letters (g : list nat) : Prop :=
  5 <= size (drawn_indices 25 g).

(** On this source [make_letter_string] returns a string: only the
    high-load string with the target draws with a redraw loop. *)
Definition can_build (load_type : string) (target_present : bool)
    (g : list nat) : Prop :=
  load_type = "low" \/ target_present = false \/ five_letters g.

(** Any five consecutive draws select five different letters, so that no
    draw of [sample(non_target_letters, 5)] is redrawn. *)
Fixpoint spread (g : list nat) : bool :=
  match g with
  | [] => true
  | _ :: g' =>
      bool_decide (NoDup ((fun h => h mod 25) <$> take 5 g)) && spread g'
  end.

(** A spread source with the at most 13 draws a trial takes, for each of
    [n] trials. *)
Definition ample (n : nat) (g : list nat) : Prop :=
  spread g = true /\ 13 * n <= length g.

(** The Trial Records the trial loop of a run has accumulated when the
    closing screen is reached. *)
Definition session_results (r : Run.t) (g : list nat) : option (list Row.t) :=
  match generate_trials g with
  | Some (trials, g1) =>
      match trial_loop (Run.exp_info r) (Run.bgImages r) 1 trials
                       (Run.envs r) State.initial g1 with
      | Some (st, _) => Some (State.results st)
      | None => None
      end
  | None => None
  end.

(** The pool the loading loop computes for one background type. *)
Definition scanned_pool (dirs : gmap string (list string)) (bg_type : string)
  : list string :=
  match dirs !! path_join bgFolder bg_type with
  | None => []
  | Some listing =>
      path_join (path_join bgFolder bg_type)
        <$> filter (fun f => is_image_file f = true) listing
  end.

(** The record the loop body appends for a trial, given the letter string
    it generated and the response it recorded. *)
Definition trial_row (exp_info : ExpInfo.t) (i : nat) (trial : Trial.t)
    (letters : string) (response : option (string * Q)) : Row.t :=
  Row.mk (ExpInfo.Participant exp_info) (ExpInfo.Session exp_info) i
         (Trial.load trial) (Trial.background_type trial)
         (if Trial.target_present trial then 1 else 0) letters
         (default "" (fst <$> response))
         (match snd <$> response with
          | Some x => VFloat x
          | None => VStr ""
          end)
         (determine_correct (Trial.target_present trial) (fst <$> response)).

(** The key presses that reach the buffer during the given ticks. *)
Definition presses (ticks : list Tick.t) : list (string * Q) :=
  flat_map Tick.pressed ticks.

(** The trial's environment at position [k] of the session. *)
Definition env_at (envs : list Env.t) (k : nat) : Env.t :=
  default Env.silent (envs !! k).

(** The recorded response of the trial is the cancel key. *)
Definition cancelled (env : Env.t) : Prop :=
  fst <$> recorded_response (Env.stimulus env) = Some "escape".

#[local] Instance cancelled_dec env : Decision (cancelled env).
Proof. unfold cancelled. apply _. Defined.

(** [row] is the record of trial number [i] run under [env]. *)
Definition row_of (exp_info : ExpInfo.t) (i : nat) (trial : Trial.t)
    (env : Env.t) (row : Row.t) : Prop :=
  ~ cancelled env
  /\ exists letters,
       letter_string_shape (Trial.load trial) (Trial.target_present trial)
                           letters
       /\ row = trial_row exp_info i trial letters
                  (recorded_response (Env.stimulus env)).

(** The warning the loading loop prints for a type whose pool is empty. *)
Definition expected_warning (dirs : gmap string (list string))
    (bg_type : string) : warning :=
  match dirs !! path_join bgFolder bg_type with
  | None => FolderNotFound bg_type (path_join bgFolder bg_type)
  | Some _ => NoImageFiles bg_type (path_join bgFolder bg_type)
  end.

(** The number of leading ticks whose clock reads before [limit]. *)
Fixpoint leading_before (limit : Q) (ticks : list Tick.t) : nat :=
  match ticks with
  | [] => 0
  | t :: ticks' =>
      if Qltb (Tick.clock t) limit then S (leading_before limit ticks') else 0
  end.

(** What one pass through the loop body returns, spelled out from the
    three random choices it makes (the jitter, the image, the letters). *)
Definition trial_result (exp_info : ExpInfo.t) (i : nat) (trial : Trial.t)
    (env : Env.t) (st : State.t) (jitter : Q) (img_path : option string)
    (letters : string) : flow * State.t :=
  let d0 := State.display st in
  let fix_frames :=
    (fixation_loop jitter (Display.win_color d0) (Env.fixation env)
                   (State.key_buffer st)).1 in
  let d := Display.mk
             (match img_path with
              | Some _ => Display.win_color d0
              | None => [0; 0; 0]%Z
              end) img_path letters in
  let p := present d img_path (Env.stimulus env) in
  let screen := State.screen st ++ [fix_frames ++ Poll.frames p] in
  if decide (cancelled env)
  then (Break, State.mk d (Poll.buffer p) (State.results st) screen)
  else (Continue,
        State.mk d (Poll.buffer p)
          (State.results st
             ++ [trial_row exp_info i trial letters
                   (recorded_response (Env.stimulus env))])
          screen).

(** The condition a record was run under, read back from its fields. *)
Definition row_trial (row : Row.t) : Trial.t :=
  Trial.mk (Row.load row) (Row.background_type row)
           (bool_decide (Row.target_present row = 1)).

(* ================================================================== *)
(** * Part II: properties                                              *)
(* ================================================================== *)

(** ** The random primitives meet their contracts *)

Section RandomFacts.
Context {A : Type}.
Implicit Types (x y : A) (l pool : list A) (g : list nat).

Lemma randbelow_spec n g :
  exists i g', randbelow n g = Some (i, g') /\ (0 < n -> i < n).
Proof.
  destruct g as [|h g]; simpl; eauto.
  exists (h mod n), g. split; [done|]. intros Hn.
  apply Nat.mod_upper_bound. lia.
Qed.

Lemma uniform_total (a b : Q) g :
  exists r g', uniform a b g = Some (r, g').
Proof. unfold uniform, bind, random. destruct g; eauto. Qed.

Lemma choice_spec l g :
  l <> [] -> exists x g', choice l g = Some (x, g') /\ x ∈ l.
Proof.
  intros Hl. destruct l as [|a l']; [done|].
  unfold choice, bind.
  destruct (randbelow_spec (length (a :: l')) g) as (i & g' & -> & Hi).
  destruct (lookup_lt_is_Some_2 (a :: l') i) as [x Hx].
  { apply Hi. simpl. lia. }
  rewrite Hx. exists x, g'. split; [done|].
  by eapply list_elem_of_lookup_2.
Qed.

(** Overwriting slot [j] with [y] trades [y] for the old content. *)
Lemma insert_Permutation l j x y :
  l !! j = Some x -> y :: l ≡ₚ x :: <[j:=y]> l.
Proof.
  revert j. induction l as [|a l IH]; intros [|j] Hj; simplify_eq/=.
  - apply Permutation_swap.
  - etrans; [apply Permutation_swap|].
    etrans; [apply Permutation_skip, (IH j Hj)|].
    apply Permutation_swap.
Qed.

(** One selection step of [sample] removes exactly the chosen item. *)
Lemma sample_step_Permutation pool j x y :
  pool !! j = Some x -> pool !! (length pool - 1) = Some y ->
  x :: take (length pool - 1) (<[j:=y]> pool) ≡ₚ pool.
Proof.
  intros Hj Hy.
  destruct (decide (j = length pool - 1)) as [->|Hne].
  - assert (x = y) as -> by congruence.
    rewrite list_insert_id by done.
    rewrite <- (take_drop (length pool - 1) pool) at 3.
    rewrite (drop_S pool y (length pool - 1)) by done.
    rewrite drop_ge by lia.
    by rewrite <- Permutation_middle, app_nil_r.
  - apply lookup_lt_Some in Hj as Hlt.
    rewrite <- (take_drop (length pool - 1) pool) at 3.
    rewrite (drop_S pool y (length pool - 1)) by done.
    rewrite drop_ge by lia.
    rewrite <- Permutation_middle, app_nil_r.
    rewrite take_insert_lt by lia.
    symmetry. apply insert_Permutation.
    rewrite lookup_take_lt by lia. done.
Qed.

Lemma sample_loop_spec k : forall pool g,
  k <= length pool ->
  exists res g', sample_loop k pool g = Some (res, g')
    /\ length res = k /\ exists rest, res ++ rest ≡ₚ pool.
Proof.
  induction k as [|k IH]; intros pool g Hk.
  - exists [], g. repeat split. by exists pool.
  - simpl. unfold bind at 1.
    destruct (randbelow_spec (length pool) g) as (j & g1 & -> & Hj).
    destruct (lookup_lt_is_Some_2 pool j) as [x Hx]; [lia|].
    destruct (lookup_lt_is_Some_2 pool (length pool - 1)) as [y Hy]; [lia|].
    rewrite Hx, Hy. unfold bind.
    destruct (IH (take (length pool - 1) (<[j:=y]> pool)) g1)
      as (res & g2 & -> & Hlen & rest & Hperm).
    { rewrite length_take, length_insert. lia. }
    exists (x :: res), g2. repeat split; [simpl; lia|].
    exists rest. simpl. rewrite Hperm.
    by apply sample_step_Permutation.
Qed.

(** [sample] takes the pool branch for a small population... *)
Lemma sample_pool (population : list A) k g :
  k <= length population -> length population <= setsize k ->
  sample population k g = sample_loop k population g.
Proof.
  intros Hk Hn. unfold sample. cbn zeta.
  destruct (Nat.leb_spec k (length population)); [|lia].
  by destruct (Nat.leb_spec (length population) (setsize k)); [|lia].
Qed.

(** ... and the branch with the set of selected indices for a large one. *)
Lemma sample_set (population : list A) k g :
  k <= length population -> setsize k < length population ->
  sample population k g = sample_selected population k ∅ g.
Proof.
  intros Hk Hn. unfold sample. cbn zeta.
  destruct (Nat.leb_spec k (length population)); [|lia].
  by destruct (Nat.leb_spec (length population) (setsize k)); [lia|].
Qed.

Lemma redraw_fresh n selected j g :
  j ∉ selected -> redraw n selected j g = Some (j, g).
Proof. intros Hj. destruct g; cbn [redraw]; by rewrite decide_False. Qed.

Lemma redraw_again n selected j h g :
  j ∈ selected ->
  redraw n selected j (h :: g) = bind (randbelow n) (redraw n selected) (h :: g).
Proof. intros Hj. cbn [redraw]. by rewrite decide_True. Qed.

(** The index the redraw loop ends with has not been selected before. *)
Lemma redraw_spec n selected g : forall j j' g',
  redraw n selected j g = Some (j', g') ->
  (j' ∉ selected) /\ (0 < n -> j < n -> j' < n).
Proof.
  induction g as [|h g IH]; intros j j' g'; cbn [redraw].
  - destruct (decide (j ∈ selected)).
    + destruct (decide (0 ∈ selected)); [done|]. intros [= <- <-]. by split.
    + intros [= <- <-]. by split.
  - destruct (decide (j ∈ selected)).
    + intros [Hj' Hlt]%IH. split; [done|]. intros Hn _.
      apply Hlt; [done|]. apply Nat.mod_upper_bound. lia.
    + intros [= <- <-]. by split.
Qed.

(** Whatever the set branch returns is [k] distinct items of the
    population, at indices not selected before. *)
Lemma sample_selected_spec (population : list A) k :
  NoDup population ->
  forall selected g res g',
    sample_selected population k selected g = Some (res, g') ->
    length res = k /\ NoDup res
    /\ forall x, x ∈ res ->
         exists j, (j ∉ selected) /\ population !! j = Some x.
Proof.
  intros Hnd. induction k as [|k IH]; intros selected g res g' Hs.
  - injection Hs as <- <-. split; [done|]. split; [constructor|].
    by intros x ?%elem_of_nil.
  - cbn [sample_selected] in Hs. unfold bind, ret in Hs.
    destruct (randbelow_spec (length population) g) as (j0 & g1 & Hj0 & _).
    rewrite Hj0 in Hs.
    destruct (redraw (length population) selected j0 g1)
      as [[j g2]|] eqn:Hre; [|done].
    destruct (population !! j) as [x|] eqn:Hx; [|done].
    destruct (sample_selected population k ({[j]} ∪ selected) g2)
      as [[rest g3]|] eqn:Hrest; [|done].
    injection Hs as <- <-.
    apply redraw_spec in Hre as [Hj _].
    destruct (IH _ _ _ _ Hrest) as (Hlen & Hndr & Hin).
    split; [simpl; lia|]. split.
    + constructor; [|done]. intros Hxin.
      destruct (Hin x Hxin) as (j' & Hj' & Hx').
      assert (j' = j) as -> by exact (NoDup_lookup population j' j x Hnd Hx' Hx).
      apply Hj', elem_of_union_l. by apply elem_of_singleton.
    + intros y [->|Hy]%elem_of_cons; [by exists j|].
      destruct (Hin y Hy) as (j' & Hj' & Hy').
      exists j'. split; [|done]. intros Hsel. by apply Hj', elem_of_union_r.
Qed.

Lemma drawn_indices_nil n i : i ∉ drawn_indices n [].
Proof. apply not_elem_of_empty. Qed.

Lemma drawn_indices_cons n h g i :
  i ∈ drawn_indices n (h :: g) <-> i = h mod n \/ i ∈ drawn_indices n g.
Proof.
  unfold drawn_indices. cbn [fmap list_fmap list_to_set].
  by rewrite elem_of_union, elem_of_singleton.
Qed.

(** A draw followed by the redraw loop comes to an end when the source
    still holds an index that is not selected. *)
Lemma draw_fresh n selected g :
  0 < n ->
  (exists i, i ∈ drawn_indices n g /\ i ∉ selected) ->
  exists j g',
    bind (randbelow n) (redraw n selected) g = Some (j, g')
    /\ j < n /\ (j ∉ selected)
    /\ forall i, i ∈ drawn_indices n g -> i ∉ selected -> i <> j ->
                 i ∈ drawn_indices n g'.
Proof.
  intros Hn. induction g as [|h g IH]; intros (i & Hi & His).
  - by apply drawn_indices_nil in Hi.
  - assert (Hh : h mod n < n) by (apply Nat.mod_upper_bound; lia).
    destruct (decide (h mod n ∈ selected)) as [Hsel|Hsel].
    + assert (Hig : i ∈ drawn_indices n g).
      { apply drawn_indices_cons in Hi as [->|Hi]; done. }
      destruct g as [|h' g'].
      { by apply drawn_indices_nil in Hig. }
      destruct IH as (j & g1 & Hj & Hlt & Hfresh & Hrest); [by exists i|].
      exists j, g1. split.
      { unfold bind at 1. cbn [randbelow]. by rewrite redraw_again. }
      split; [done|]. split; [done|].
      intros i' Hi' His' Hij. apply Hrest; [|done..].
      apply drawn_indices_cons in Hi' as [->|Hi']; done.
    + exists (h mod n), g. split.
      { unfold bind. cbn [randbelow]. by apply redraw_fresh. }
      split; [done|]. split; [done|].
      intros i' Hi' His' Hij.
      apply drawn_indices_cons in Hi' as [->|Hi']; done.
Qed.

(** The set branch returns when the source still holds [k] indices that
    are not selected. *)
Lemma sample_selected_returns (population : list A) k :
  0 < length population ->
  forall selected g,
    k <= size (drawn_indices (length population) g ∖ selected) ->
    exists res g', sample_selected population k selected g = Some (res, g').
Proof.
  intros Hn. induction k as [|k IH]; intros selected g Hk.
  - by eexists _, _.
  - destruct (size_pos_elem_of
                (drawn_indices (length population) g ∖ selected))
      as [i [Hi His]%elem_of_difference]; [lia|].
    destruct (draw_fresh (length population) selected g Hn)
      as (j & g1 & Hj & Hlt & Hfresh & Hrest); [by exists i|].
    destruct (lookup_lt_is_Some_2 population j Hlt) as [y Hy].
    destruct (IH ({[j]} ∪ selected) g1) as (rest & g2 & Hrec).
    { set (X := drawn_indices (length population) g ∖ selected) in *.
      assert (Hle : size X <= size (X ∖ {[j]}) + 1).
      { rewrite <- (size_singleton (C := gset nat) j).
        rewrite <- size_union.
        - apply subseteq_size. intros z Hz. apply elem_of_union.
          destruct (decide (z = j)) as [->|Hne].
          + right. by apply elem_of_singleton.
          + left. apply elem_of_difference. split; [done|].
            by intros ?%elem_of_singleton.
        - intros z [_ Hz]%elem_of_difference Hz'. done. }
      assert (Hsub : size (X ∖ {[j]})
                     <= size (drawn_indices (length population) g1
                                ∖ ({[j]} ∪ selected))).
      { apply subseteq_size. intros z Hz. subst X.
        apply elem_of_difference in Hz as [Hz Hzj].
        apply elem_of_difference in Hz as [Hz Hzs].
        assert (Hne : z <> j) by (by intros ->; apply Hzj, elem_of_singleton).
        apply elem_of_difference. split; [by apply Hrest|].
        intros [?%elem_of_singleton|?]%elem_of_union; done. }
      lia. }
    exists (y :: rest), g2.
    cbn [sample_selected]. unfold bind at 1.
    unfold bind at 1 in Hj.
    destruct (randbelow (length population) g) as [[j0 g0]|]; [|done].
    unfold bind at 1. rewrite Hj, Hy. unfold bind, ret. by rewrite Hrec.
Qed.

(** On draws that select [k] different fresh indices nothing is redrawn:
    the set branch takes exactly [k] draws. *)
Lemma sample_selected_spread (population : list A) k :
  0 < length population ->
  forall selected g,
    k <= length g ->
    NoDup ((fun h => h mod length population) <$> take k g) ->
    (forall j, j ∈ ((fun h => h mod length population) <$> take k g) ->
               j ∉ selected) ->
    exists res, sample_selected population k selected g = Some (res, drop k g).
Proof.
  intros Hn. induction k as [|k IH]; intros selected g Hk Hnd Hsel.
  - by exists [].
  - destruct g as [|h g]; [simpl in Hk; lia|].
    cbn [take fmap list_fmap] in Hnd, Hsel.
    apply NoDup_cons in Hnd as [Hh Hnd].
    assert (Hlt : h mod length population < length population)
      by (apply Nat.mod_upper_bound; lia).
    destruct (lookup_lt_is_Some_2 population _ Hlt) as [y Hy].
    destruct (IH ({[h mod length population]} ∪ selected) g)
      as (rest & Hrec); [simpl in Hk; lia|done| |].
    { intros j Hj. apply not_elem_of_union. split.
      - intros ->%elem_of_singleton. done.
      - apply Hsel. by right. }
    exists (y :: rest). cbn [sample_selected drop].
    unfold bind at 1. cbn [randbelow]. unfold bind at 1.
    rewrite redraw_fresh by (apply Hsel; by left).
    rewrite Hy. unfold bind, ret. by rewrite Hrec.
Qed.

(** ** How many draws each primitive takes *)

Lemma randbelow_rest n g : exists i, randbelow n g = Some (i, drop 1 g).
Proof. destruct g; by eexists. Qed.

Lemma uniform_rest (a b : Q) g : exists r, uniform a b g = Some (r, drop 1 g).
Proof. unfold uniform, bind, random. destruct g; by eexists. Qed.

Lemma choice_rest l g x g' : choice l g = Some (x, g') -> g' = drop 1 g.
Proof.
  destruct l as [|a l]; [done|]. unfold choice, bind.
  destruct (randbelow_rest (length (a :: l)) g) as [i ->].
  destruct ((a :: l) !! i); [|done]. by intros [= _ <-].
Qed.

Lemma sample_loop_rest k : forall pool g res g',
  sample_loop k pool g = Some (res, g') -> g' = drop k g.
Proof.
  induction k as [|k IH]; intros pool g res g' Hs.
  - by injection Hs as _ <-.
  - cbn [sample_loop] in Hs. unfold bind at 1 in Hs.
    destruct (randbelow_rest (length pool) g) as [j Hj]. rewrite Hj in Hs.
    destruct (pool !! j); [|done].
    destruct (pool !! (length pool - 1)); [|done].
    unfold bind, ret in Hs.
    destruct (sample_loop k _ (drop 1 g)) as [[rest g1]|] eqn:Hrec; [|done].
    injection Hs as _ <-. apply IH in Hrec as ->.
    by rewrite drop_drop.
Qed.

Lemma shuffle_loop_rest i : forall l g l' g',
  shuffle_loop i l g = Some (l', g') -> g' = drop i g.
Proof.
  induction i as [|i IH]; intros l g l' g' Hs.
  - by injection Hs as _ <-.
  - cbn [shuffle_loop] in Hs. unfold bind in Hs.
    destruct (randbelow_rest (S i + 1) g) as [j Hj]. rewrite Hj in Hs.
    destruct (swap (S i) j l); [|done].
    apply IH in Hs as ->. by rewrite drop_drop.
Qed.

Lemma swap_spec i j l :
  i < length l -> j < length l ->
  exists l', swap i j l = Some l' /\ l' ≡ₚ l.
Proof.
  intros Hi Hj. unfold swap.
  destruct (lookup_lt_is_Some_2 l i Hi) as [xi Hxi].
  destruct (lookup_lt_is_Some_2 l j Hj) as [xj Hxj].
  rewrite Hxi, Hxj. eexists; split; [done|].
  symmetry. apply (Permutation_cons_inv (a:=xj)).
  etrans; [apply (insert_Permutation l i xi xj Hxi)|].
  apply insert_Permutation.
  destruct (decide (i = j)) as [->|Hne].
  - by rewrite list_lookup_insert_eq.
  - by rewrite list_lookup_insert_ne.
Qed.

Lemma shuffle_loop_spec i : forall l g,
  i <= length l - 1 ->
  exists l' g', shuffle_loop i l g = Some (l', g') /\ l' ≡ₚ l.
Proof.
  induction i as [|i IH]; intros l g Hi.
  - by exists l, g.
  - cbn [shuffle_loop]. unfold bind.
    destruct (randbelow_spec (S i + 1) g) as (j & g1 & -> & Hj).
    destruct (swap_spec (S i) j l) as (l1 & -> & Hperm); [lia..|].
    destruct (IH l1 g1) as (l2 & g2 & -> & Hperm2).
    { apply Permutation_length in Hperm. lia. }
    exists l2, g2. split; [done|]. by rewrite Hperm2.
Qed.

Lemma shuffle_spec l g :
  exists l' g', shuffle l g = Some (l', g') /\ l' ≡ₚ l.
Proof. by apply shuffle_loop_spec. Qed.

End RandomFacts.

(** ** Strings as sequences of one-character strings *)

Lemma iter_str_app a b : iter_str (a +:+ b) = iter_str a ++ iter_str b.
Proof. induction a as [|c a IH]; simpl; [done|]. by rewrite IH. Qed.

Lemma iter_str_length s : String.length s = length (iter_str s).
Proof. induction s as [|c s IH]; simpl; [done|]. by rewrite IH. Qed.

Lemma iter_str_mul s n : one_char s -> iter_str (str_mul s n) = replicate n s.
Proof.
  intros Hs. induction n as [|n IH]; simpl; [done|].
  by rewrite iter_str_app, IH, Hs.
Qed.

Lemma iter_str_join ls : Forall one_char ls -> iter_str (join "" ls) = ls.
Proof.
  unfold join. induction 1 as [|x ls Hx Hls IH]; [done|].
  destruct ls as [|y ls'].
  - exact Hx.
  - change (String.concat "" (x :: y :: ls'))
      with (x +:+ "" +:+ String.concat "" (y :: ls')).
    rewrite !iter_str_app, Hx, IH. done.
Qed.

(** ** The letter sets *)

Lemma non_target_letters_length : length non_target_letters = 25.
Proof. reflexivity. Qed.

Lemma non_target_letters_NoDup : NoDup non_target_letters.
Proof. apply (bool_decide_unpack _). vm_compute. exact I. Qed.

Lemma non_target_letters_one_char : Forall one_char non_target_letters.
Proof. apply (bool_decide_unpack _). vm_compute. exact I. Qed.

Lemma non_target_letters_not_target l :
  l ∈ non_target_letters -> l <> target_letter.
Proof. unfold non_target_letters. intros Hl%list_elem_of_filter. tauto. Qed.

Lemma target_letter_one_char : one_char target_letter.
Proof. reflexivity. Qed.

(** Whatever [sample] returns on the non-target letters, on either
    branch, is [k] distinct members of the list. *)
Lemma sample_non_target k g chosen g' :
  sample non_target_letters k g = Some (chosen, g') ->
  length chosen = k /\ NoDup chosen
  /\ Forall (fun l => l ∈ non_target_letters) chosen.
Proof.
  intros Hs.
  assert (Hk : k <= length non_target_letters).
  { unfold sample in Hs. cbn zeta in Hs.
    by destruct (Nat.leb_spec k (length non_target_letters)). }
  destruct (decide (length non_target_letters <= setsize k)) as [Hn|Hn].
  - rewrite sample_pool in Hs by done.
    destruct (sample_loop_spec k non_target_letters g Hk)
      as (res & g1 & Hs' & Hlen & rest & Hperm).
    rewrite Hs' in Hs. injection Hs as <- <-. split; [done|].
    pose proof non_target_letters_NoDup as Hnd. rewrite <- Hperm in Hnd.
    apply NoDup_app in Hnd as (? & _ & _). split; [done|].
    apply Forall_forall. intros l Hl. rewrite <- Hperm.
    apply elem_of_app. by left.
  - rewrite sample_set in Hs by (done || lia).
    destruct (sample_selected_spec non_target_letters k
                non_target_letters_NoDup _ _ _ _ Hs) as (Hlen & Hnd & Hin).
    split; [done|]. split; [done|].
    apply Forall_forall. intros l Hl.
    destruct (Hin l Hl) as (j & _ & Hj). by eapply list_elem_of_lookup_2.
Qed.

Lemma non_target_members chosen :
  Forall (fun l => l ∈ non_target_letters) chosen ->
  Forall one_char chosen /\ target_letter ∉ chosen.
Proof.
  intros Hsub. split.
  - eapply Forall_impl; [exact Hsub|]. intros l Hl.
    exact (proj1 (Forall_forall _ _) non_target_letters_one_char l Hl).
  - intros Hx. apply (proj1 (Forall_forall _ _) Hsub) in Hx.
    by apply (non_target_letters_not_target _ Hx).
Qed.

(** Six letters are drawn from a pool: always, with six draws. *)
Lemma sample_six g :
  exists chosen, sample non_target_letters 6 g = Some (chosen, drop 6 g).
Proof.
  rewrite sample_pool;
    [|rewrite non_target_letters_length; vm_compute; lia..].
  destruct (sample_loop_spec 6 non_target_letters g)
    as (res & g1 & Hs & _); [rewrite non_target_letters_length; lia|].
  exists res. by rewrite Hs, (sample_loop_rest _ _ _ _ _ Hs).
Qed.

(** Five letters are drawn with the set of selected indices: the call
    returns when the source holds five different letter indices... *)
Lemma sample_five g :
  five_letters g ->
  exists chosen g', sample non_target_letters 5 g = Some (chosen, g').
Proof.
  intros Hfive.
  rewrite sample_set;
    [|rewrite non_target_letters_length; vm_compute; lia..].
  apply sample_selected_returns;
    rewrite non_target_letters_length; [lia|].
  by rewrite difference_empty_L.
Qed.

Lemma spread_head g :
  spread g = true -> 5 <= length g ->
  NoDup ((fun h => h mod 25) <$> take 5 g).
Proof.
  destruct g as [|h g]; [simpl; lia|]. cbn [spread].
  by intros [?%bool_decide_eq_true _]%andb_true_iff.
Qed.

Lemma spread_drop c g : spread g = true -> spread (drop c g) = true.
Proof.
  revert g. induction c as [|c IH]; intros [|h g]; try done.
  cbn [spread drop]. intros [_ Hg]%andb_true_iff. by apply IH.
Qed.

(** ... and on a spread source it takes exactly five draws. *)
Lemma sample_five_spread g :
  spread g = true -> 5 <= length g ->
  exists chosen, sample non_target_letters 5 g = Some (chosen, drop 5 g).
Proof.
  intros Hspread Hlen.
  rewrite sample_set;
    [|rewrite non_target_letters_length; vm_compute; lia..].
  apply sample_selected_spread; rewrite ?non_target_letters_length;
    [lia|done|by apply spread_head|].
  intros j _. apply not_elem_of_empty.
Qed.

(** What [make_letter_string] returns, when it returns. *)
Lemma make_letter_string_inv load_type target_present g s g' :
  make_letter_string load_type target_present g = Some (s, g') ->
  (load_type = "low"
   /\ exists letter,
        (if target_present then letter = target_letter
         else letter ∈ non_target_letters)
        /\ s = str_mul letter 6)
  \/ (load_type <> "low"
      /\ exists chosen,
           length chosen = (if target_present then 5 else 6)
           /\ NoDup chosen
           /\ Forall (fun l => l ∈ non_target_letters) chosen
           /\ iter_str s ≡ₚ (if target_present then target_letter :: chosen
                             else chosen)).
Proof.
  unfold make_letter_string.
  destruct (decide (load_type = "low")) as [Hlow|Hhigh]; intros Hs.
  - left. split; [done|]. destruct target_present.
    + injection Hs as <- <-. by exists target_letter.
    + unfold bind in Hs.
      destruct (choice_spec non_target_letters g) as (l & g1 & Hc & Hl);
        [done|].
      rewrite Hc in Hs. injection Hs as <- <-. by exists l.
  - right. split; [done|]. unfold bind, ret in Hs.
    destruct target_present.
    + destruct (sample non_target_letters 5 g) as [[chosen g1]|] eqn:Hsam;
        [|done].
      destruct (shuffle_spec (([] ++ [target_letter]) ++ chosen) g1)
        as (letters & g2 & Hsh & Hperm).
      rewrite Hsh in Hs. injection Hs as <- <-.
      destruct (sample_non_target _ _ _ _ Hsam) as (Hlen & Hnd & Hsub).
      exists chosen. repeat split; try done.
      rewrite iter_str_join; [done|]. rewrite Hperm.
      constructor; [apply target_letter_one_char|].
      by apply non_target_members.
    + destruct (sample non_target_letters 6 g) as [[chosen g1]|] eqn:Hsam;
        [|done].
      destruct (shuffle_spec ([] ++ chosen) g1)
        as (letters & g2 & Hsh & Hperm).
      rewrite Hsh in Hs. injection Hs as <- <-.
      destruct (sample_non_target _ _ _ _ Hsam) as (Hlen & Hnd & Hsub).
      exists chosen. repeat split; try done.
      rewrite iter_str_join; [done|]. rewrite Hperm.
      by apply non_target_members.
Qed.

Lemma make_letter_string_shape load_type target_present g s g' :
  make_letter_string load_type target_present g = Some (s, g') ->
  letter_string_shape load_type target_present s.
Proof.
  intros [[Hlow (letter & Hl & ->)]
         |[Hhigh (chosen & Hlen & Hnd & Hsub & Hperm)]]%make_letter_string_inv.
  - assert (H1 : one_char letter).
    { destruct target_present; [by subst|].
      exact (proj1 (Forall_forall _ _) non_target_letters_one_char _ Hl). }
    apply (shape_low _ _ _ letter); try done.
    + destruct target_present; [done|].
      by apply non_target_letters_not_target.
    + by apply iter_str_mul.
  - apply (shape_high _ _ _ chosen); try done.
    by apply non_target_members.
Qed.

(** [make_letter_string] returns a string on every source, except for
    the high-load string with the target, which needs draws for five
    different letters. *)
Lemma make_letter_string_returns load_type target_present g :
  can_build load_type target_present g ->
  exists s g', make_letter_string load_type target_present g = Some (s, g').
Proof.
  unfold make_letter_string, can_build. intros Hcan.
  destruct (decide (load_type = "low")) as [Hlow|Hhigh].
  - destruct target_present; [by eexists _, _|].
    unfold bind.
    destruct (choice_spec non_target_letters g) as (l & g1 & -> & _); [done|].
    by eexists _, _.
  - unfold bind, ret. destruct target_present.
    + destruct (sample_five g) as (chosen & g1 & ->).
      { by destruct Hcan as [?|[?|?]]. }
      destruct (shuffle_spec (([] ++ [target_letter]) ++ chosen) g1)
        as (letters & g2 & -> & _).
      by eexists _, _.
    + destruct (sample_six g) as (chosen & ->).
      destruct (shuffle_spec ([] ++ chosen) (drop 6 g))
        as (letters & g2 & -> & _).
      by eexists _, _.
Qed.

(** On a spread source no draw is redrawn, and at most 11 draws are
    taken. *)
Lemma make_letter_string_rest load_type target_present g :
  load_type = "low" \/ target_present = false
  \/ (spread g = true /\ 5 <= length g) ->
  exists s c,
    make_letter_string load_type target_present g = Some (s, drop c g)
    /\ c <= 11.
Proof.
  unfold make_letter_string. intros Hcan.
  destruct (decide (load_type = "low")) as [Hlow|Hhigh].
  - destruct target_present; [exists (str_mul target_letter 6), 0; split; [done|lia]|].
    unfold bind.
    destruct (choice_spec non_target_letters g) as (l & g1 & Hc & _); [done|].
    rewrite Hc. apply choice_rest in Hc as ->.
    eexists _, 1. split; [done|lia].
  - unfold bind, ret. destruct target_present.
    + destruct (sample_five_spread g) as (chosen & Hsam).
      { by destruct Hcan as [?|[?|[? ?]]]. }
      { by destruct Hcan as [?|[?|[? ?]]]. }
      rewrite Hsam.
      destruct (sample_non_target _ _ _ _ Hsam) as (Hlen & _).
      destruct (shuffle_spec (([] ++ [target_letter]) ++ chosen) (drop 5 g))
        as (letters & g2 & Hsh & _).
      rewrite Hsh. unfold shuffle in Hsh.
      apply shuffle_loop_rest in Hsh as ->.
      rewrite drop_drop. eexists _, _. split; [done|].
      rewrite !length_app, Hlen. simpl. lia.
    + destruct (sample_six g) as (chosen & Hsam). rewrite Hsam.
      destruct (sample_non_target _ _ _ _ Hsam) as (Hlen & _).
      destruct (shuffle_spec ([] ++ chosen) (drop 6 g))
        as (letters & g2 & Hsh & _).
      rewrite Hsh. unfold shuffle in Hsh.
      apply shuffle_loop_rest in Hsh as ->.
      rewrite drop_drop. eexists _, _. split; [done|].
      rewrite !length_app, Hlen. simpl. lia.
Qed.

Lemma count_replicate (c l : string) n :
  length (filter (fun x => x = c) (replicate n l))
  = if decide (l = c) then n else 0.
Proof.
  induction n as [|n IH]; simpl.
  - by destruct (decide (l = c)).
  - rewrite filter_cons. destruct (decide (l = c)); simpl; by rewrite IH.
Qed.

Lemma count_absent (c : string) ls :
  c ∉ ls -> length (filter (fun x => x = c) ls) = 0.
Proof.
  induction ls as [|x ls IH]; intros Hc; [done|].
  apply not_elem_of_cons in Hc as [Hne Hc].
  rewrite filter_cons_False by congruence. by apply IH.
Qed.

(** C2 (as stated) fails: under low load with the target present the
    string is the target six times, so the target occurs 6 times, not 1. *)
Lemma C2_low_present_counterexample :
  exists s g', make_letter_string "low" true [] = Some (s, g')
    /\ s = "XXXXXX" /\ count target_letter s <> 1.
Proof. exists "XXXXXX", []. repeat split. vm_compute. lia. Qed.

(** C2 (amended): the string returned by [make_letter_string] contains no
    target character when [target_present] is false; when it is true the
    target occurs exactly once under high load and six times (the whole
    string) under low load.  A string is returned on every source for a
    low load or an absent target, and, for the high-load string with the
    target, on every source that holds draws for five different letters. *)
Theorem C2_target_count load_type target_present g :
  (forall s g',
     make_letter_string load_type target_present g = Some (s, g') ->
     count target_letter s
     = if target_present
       then (if decide (load_type = "low") then 6 else 1)
       else 0)
  /\ (can_build load_type target_present g ->
      exists s g', make_letter_string load_type target_present g = Some (s, g')).
Proof.
  split; [|apply make_letter_string_returns].
  intros s g' Hshape%make_letter_string_shape. unfold count.
  destruct Hshape as [letter Hlow _ Hl Hiter | chosen Hhigh _ Hx _ Hperm].
  - rewrite Hiter, count_replicate.
    destruct target_present.
    + by rewrite !decide_True.
    + by rewrite decide_False.
  - rewrite Hperm. destruct target_present.
    + rewrite decide_False, filter_cons_True by done.
      simpl. by rewrite count_absent.
    + by rewrite count_absent.
Qed.

Lemma C2_target_count_witness :
  exists s g',
    make_letter_string "high" true [3; 3; 3; 1; 4; 1; 5; 9; 2; 6; 5; 3; 5]
      = Some (s, g')
    /\ count target_letter s = 1.
Proof.
  destruct (C2_target_count "high" true [3; 3; 3; 1; 4; 1; 5; 9; 2; 6; 5; 3; 5])
    as [Hcount Hreturns].
  destruct Hreturns as (s & g' & Hs).
  { right. right. unfold five_letters. vm_compute. lia. }
  exists s, g'. split; [exact Hs|]. exact (Hcount s g' Hs).
Defined.

(** C6: every high-load letter string consists of 6 pairwise-distinct
    characters, whether or not the target is present.  (It is returned
    on every source when the target is absent, and on every source that
    holds draws for five different letters when it is present.) *)
Theorem C6_high_load_distinct target_present g :
  (forall s g',
     make_letter_string "high" target_present g = Some (s, g') ->
     length (iter_str s) = 6 /\ NoDup (iter_str s))
  /\ (can_build "high" target_present g ->
      exists s g', make_letter_string "high" target_present g = Some (s, g')).
Proof.
  split; [|apply make_letter_string_returns].
  intros s g' Hshape%make_letter_string_shape.
  destruct Hshape as [letter Hlow _ _ _ | chosen _ Hnd Hx Hlen Hperm];
    [done|].
  rewrite Hperm. destruct target_present.
  - split; [simpl; lia|]. by constructor.
  - done.
Qed.

Lemma C6_high_load_distinct_witness :
  exists s g',
    make_letter_string "high" true [3; 3; 3; 1; 4; 1; 5; 9; 2; 6; 5; 3; 5]
      = Some (s, g')
    /\ length (iter_str s) = 6 /\ NoDup (iter_str s).
Proof.
  destruct (C6_high_load_distinct true [3; 3; 3; 1; 4; 1; 5; 9; 2; 6; 5; 3; 5])
    as [Hdistinct Hreturns].
  destruct Hreturns as (s & g' & Hs).
  { right. right. unfold five_letters. vm_compute. lia. }
  exists s, g'. split; [exact Hs|]. exact (Hdistinct s g' Hs).
Defined.

(** C7: for every load level and every [target_present], the returned
    string has length exactly 6.  (It is returned on every source for a
    low load or an absent target, and otherwise on every source that
    holds draws for five different letters.) *)
Theorem C7_length_six load_type target_present g :
  (forall s g',
     make_letter_string load_type target_present g = Some (s, g') ->
     String.length s = 6)
  /\ (can_build load_type target_present g ->
      exists s g', make_letter_string load_type target_present g = Some (s, g')).
Proof.
  split; [|apply make_letter_string_returns].
  intros s g' Hshape%make_letter_string_shape. rewrite iter_str_length.
  destruct Hshape as [letter _ _ _ Hiter | chosen _ _ _ Hlen Hperm].
  - by rewrite Hiter, length_replicate.
  - rewrite Hperm. destruct target_present; simpl; lia.
Qed.

Lemma C7_length_six_witness :
  exists s g',
    make_letter_string "high" true [3; 3; 3; 1; 4; 1; 5; 9; 2; 6; 5; 3; 5]
      = Some (s, g')
    /\ String.length s = 6.
Proof.
  destruct (C7_length_six "high" true [3; 3; 3; 1; 4; 1; 5; 9; 2; 6; 5; 3; 5])
    as [Hlength Hreturns].
  destruct Hreturns as (s & g' & Hs).
  { right. right. unfold five_letters. vm_compute. lia. }
  exists s, g'. split; [exact Hs|]. exact (Hlength s g' Hs).
Defined.

(** The high-load string with the target is not returned on a source
    that keeps answering the same index: the second letter is redrawn
    for ever. *)
Example make_letter_string_no_return :
  make_letter_string "high" true [] = None
  /\ make_letter_string "high" true [7; 32; 57] = None.
Proof. by vm_compute. Qed.

(** The draws 3, 3, 3, 1, ... select D, then redraw twice, then B, E, F,
    J (the set branch of [sample]), before the shuffle. *)
Example make_letter_string_redraws :
  make_letter_string "high" true
    [3; 3; 3; 1; 4; 1; 5; 9; 2; 6; 5; 3; 5; 8; 9; 7]
  = Some ("JEXFDB", [8; 9; 7]).
Proof. by vm_compute. Qed.

Lemma get_background_image_spec (bgImages : gmap string (list string))
    (bg_type : string) g :
  exists r g', get_background_image bgImages bg_type g = Some (r, g')
    /\ match r with
       | None => default [] (bgImages !! bg_type) = []
       | Some p => p ∈ default [] (bgImages !! bg_type)
       end.
Proof.
  unfold get_background_image.
  destruct (default [] (bgImages !! bg_type)) as [|f files] eqn:Hpool.
  - by exists None, g.
  - unfold bind.
    destruct (choice_spec (f :: files) g) as (p & g' & -> & Hp); [done|].
    by exists (Some p), g'.
Qed.

(** C10: [get_background_image] returns [None] exactly when the pool of
    the type is empty (a type missing from the mapping counts as empty),
    and otherwise a path that belongs to that pool. *)
Theorem C10_background_choice (bgImages : gmap string (list string))
    (bg_type : string) g :
  exists r g', get_background_image bgImages bg_type g = Some (r, g')
    /\ (r = None <-> default [] (bgImages !! bg_type) = [])
    /\ (forall p, r = Some p -> p ∈ default [] (bgImages !! bg_type)).
Proof.
  destruct (get_background_image_spec bgImages bg_type g)
    as (r & g' & Hr & Hpool).
  exists r, g'. split; [done|]. destruct r as [p|].
  - split; [|by intros ? [= <-]].
    split; [done|]. intros Hnil. rewrite Hnil in Hpool.
    by apply elem_of_nil in Hpool.
  - by split.
Qed.

(** The type absent from the mapping, and the type mapped to no file. *)
Example get_background_image_absent g :
  get_background_image ∅ "ai" g = Some (None, g)
  /\ get_background_image {["ai" := []]} "ai" g = Some (None, g).
Proof. done. Qed.

(** ** Trial generation *)

(** The invariant rule for a [for] loop: [Inv done s] relates the items
    already visited to the loop state. *)
Lemma for_each_inv {A S} (Inv : list A -> S -> Prop) (body : A -> S -> Rand S) :
  (forall done x s g, Inv done s ->
     exists s' g', body x s g = Some (s', g') /\ Inv (done ++ [x]) s') ->
  forall xs done s g, Inv done s ->
    exists s' g', for_each xs body s g = Some (s', g') /\ Inv (done ++ xs) s'.
Proof.
  intros Hbody. induction xs as [|x xs IH]; intros done s g Hinv.
  - exists s, g. by rewrite app_nil_r.
  - simpl. unfold bind.
    destruct (Hbody done x s g Hinv) as (s1 & g1 & -> & Hinv1).
    destruct (IH (done ++ [x]) s1 g1 Hinv1) as (s2 & g2 & -> & Hinv2).
    exists s2, g2. split; [done|]. by rewrite <- app_assoc in Hinv2.
Qed.

Lemma append_cell_spec load bg_type trials g :
  exists trials' g', append_cell load bg_type trials g = Some (trials', g')
    /\ trials' ≡ₚ trials ++ cell load bg_type [true; true; true; false; false].
Proof.
  unfold append_cell, bind.
  destruct (shuffle_spec [true; true; true; false; false] g)
    as (flags & g1 & -> & Hperm).
  destruct (for_each_inv
              (fun done s => s = trials ++ cell load bg_type done)
              (fun present trials => ret (trials ++ [Trial.mk load bg_type present])))
    with (xs := flags) (done := @nil bool) (s := trials) (g := g1)
    as (trials' & g2 & -> & ->).
  - intros done x s g0 ->. eexists _, g0. split; [done|].
    unfold cell. by rewrite fmap_app, app_assoc.
  - by rewrite app_nil_r.
  - exists (trials ++ cell load bg_type flags), g2. split; [done|].
    unfold cell. by rewrite Hperm.
Qed.

(** Before the final shuffle the list is the design up to the order
    inside each cell; after it, up to any order. *)
Lemma generate_trials_design g :
  exists trials g', generate_trials g = Some (trials, g') /\ trials ≡ₚ design.
Proof.
  unfold generate_trials, bind.
  set (row := fun load : string =>
         flat_map (fun bg_type => cell load bg_type [true; true; true; false; false])).
  destruct (for_each_inv
              (fun done s => s ≡ₚ flat_map (fun load => row load backgroundTypes) done)
              (fun load trials =>
                 for_each backgroundTypes
                   (fun bg_type trials => append_cell load bg_type trials) trials))
    with (xs := loads) (done := @nil string) (s := @nil Trial.t) (g := g)
    as (trials & g1 & -> & Hperm).
  - intros done load s g0 Hs.
    destruct (for_each_inv
                (fun done' s' => s' ≡ₚ s ++ row load done')
                (fun bg_type trials => append_cell load bg_type trials))
      with (xs := backgroundTypes) (done := @nil string) (s := s) (g := g0)
      as (s' & g' & -> & Hs').
    + intros done' bg_type s1 g1 Hs1.
      destruct (append_cell_spec load bg_type s1 g1) as (s2 & g2 & -> & Hs2).
      exists s2, g2. split; [done|].
      rewrite Hs2, Hs1. unfold row. rewrite flat_map_app. cbn [flat_map].
      by rewrite app_nil_r, app_assoc.
    + by rewrite app_nil_r.
    + exists s', g'. split; [done|].
      rewrite Hs', Hs, flat_map_app. cbn [flat_map]. by rewrite app_nil_r.
  - done.
  - destruct (shuffle_spec trials g1) as (trials' & g2 & -> & Hperm').
    exists trials', g2. split; [done|]. by rewrite Hperm'.
Qed.

(** C4: every generated trial list has exactly 40 trials, exactly 5 in
    each of the 8 (load, background type) cells, of which exactly 3 are
    target-present and exactly 2 target-absent. *)
Theorem C4_counterbalanced g :
  exists trials g', generate_trials g = Some (trials, g')
    /\ length trials = 40
    /\ Forall (fun load =>
         Forall (fun bg_type =>
           cell_size load bg_type trials = 5
           /\ cell_count load bg_type true trials = 3
           /\ cell_count load bg_type false trials = 2) backgroundTypes) loads.
Proof.
  destruct (generate_trials_design g) as (trials & g' & Hgen & Hperm).
  exists trials, g'. split; [done|]. split.
  - by rewrite Hperm.
  - assert (Hsize : forall l b, cell_size l b trials = cell_size l b design).
    { intros l b. unfold cell_size. by rewrite Hperm. }
    assert (Hcount : forall l b p,
               cell_count l b p trials = cell_count l b p design).
    { intros l b p. unfold cell_count. by rewrite Hperm. }
    repeat constructor; rewrite ?Hsize, ?Hcount; by vm_compute.
Qed.

(** ** Scoring *)

(** C5: a "z" scores correct exactly when the target is present, an "m"
    exactly when it is absent, and a trial without a recorded key is
    incorrect whatever the target. *)
Theorem C5_scoring :
  determine_correct true (Some "z") = 1
  /\ determine_correct true (Some "m") = 0
  /\ determine_correct false (Some "m") = 1
  /\ determine_correct false (Some "z") = 0
  /\ forall target_present, determine_correct target_present None = 0.
Proof. by repeat split. Qed.

(** Correct means: the key agrees with the presence of the target. *)
Lemma determine_correct_iff target_present response_key :
  determine_correct target_present response_key = 1
  <-> (target_present = true /\ response_key = Some "z")
      \/ (target_present = false /\ response_key = Some "m").
Proof.
  unfold determine_correct. destruct response_key as [key|].
  - destruct target_present; simpl; case_bool_decide; subst;
      intuition congruence.
  - intuition congruence.
Qed.

(** ** The response loops *)

(** Neither the display nor the frames drawn influence what is polled. *)
Lemma part1_polling d img d' img' ticks : forall b r fr fr',
  let p := part1 d img ticks b r fr in
  let p' := part1 d' img' ticks b r fr' in
  Poll.ticks p = Poll.ticks p' /\ Poll.buffer p = Poll.buffer p'
  /\ Poll.response p = Poll.response p'.
Proof.
  induction ticks as [|t ticks IH]; intros b r fr fr'; [done|].
  cbn [part1]. destruct (Qltb (Tick.clock t) 0.2); [|done].
  unfold getKeys. apply IH.
Qed.

Lemma part2_polling d img d' img' ticks : forall b r fr fr',
  Poll.response (part2 d img ticks b r fr)
  = Poll.response (part2 d' img' ticks b r fr').
Proof.
  induction ticks as [|t ticks IH]; intros b r fr fr'; [done|].
  cbn [part2].
  destruct (Qltb (Tick.clock t) max_dur && bool_decide (r = None)); [|done].
  unfold getKeys. apply IH.
Qed.

Lemma present_response d img ticks :
  Poll.response (present d img ticks) = recorded_response ticks.
Proof.
  unfold recorded_response, present.
  destruct (part1_polling d img Display.initial None ticks [] None [] [])
    as (-> & -> & ->).
  apply part2_polling.
Qed.

(** ** What the loops put on the screen *)

Lemma fixation_loop_frames fixation_time color ticks : forall buffer,
  Forall (fun f => f = Frame.mk color [FixationCross])
         (fixation_loop fixation_time color ticks buffer).1.
Proof.
  induction ticks as [|t ticks IH]; intros buffer; simpl; [done|].
  destruct (Qltb (Tick.clock t) fixation_time); [|done].
  specialize (IH (buffer ++ Tick.pressed t)).
  destruct (fixation_loop fixation_time color ticks (buffer ++ Tick.pressed t)).
  by constructor.
Qed.

Lemma part1_frames (P : Frame.t -> Prop) d img ticks :
  P (Frame.mk (Display.win_color d)
       (draw_background d img ++ [LetterStim (Display.letter_stim d)])) ->
  forall b r fr, Forall P fr -> Forall P (Poll.frames (part1 d img ticks b r fr)).
Proof.
  intros HP. induction ticks as [|t ticks IH]; intros b r fr Hfr; [done|].
  cbn [part1]. destruct (Qltb (Tick.clock t) 0.2); [|done].
  unfold getKeys. apply IH, Forall_app. auto.
Qed.

Lemma part2_frames (P : Frame.t -> Prop) d img ticks :
  P (Frame.mk (Display.win_color d) (draw_background d img)) ->
  forall b r fr, Forall P fr -> Forall P (Poll.frames (part2 d img ticks b r fr)).
Proof.
  intros HP. induction ticks as [|t ticks IH]; intros b r fr Hfr; [done|].
  cbn [part2].
  destruct (Qltb (Tick.clock t) max_dur && bool_decide (r = None)); [|done].
  unfold getKeys. apply IH, Forall_app. auto.
Qed.

Lemma present_frames (P : Frame.t -> Prop) d img ticks :
  P (Frame.mk (Display.win_color d)
       (draw_background d img ++ [LetterStim (Display.letter_stim d)])) ->
  P (Frame.mk (Display.win_color d) (draw_background d img)) ->
  Forall P (Poll.frames (present d img ticks)).
Proof.
  intros H1 H2. unfold present.
  apply part2_frames; [done|]. by apply part1_frames.
Qed.

(** ** One pass through the body of the trial loop *)

Lemma random_unit g :
  exists x g', random g = Some (x, g') /\ (0 <= x)%Q /\ (x <= 1)%Q.
Proof.
  destruct g as [|h g]; simpl.
  - exists 0%Q, []. by repeat split.
  - eexists _, g. split; [done|].
    pose proof (Z.mod_pos_bound (Z.of_nat h) (2 ^ 53) eq_refl) as [Hlo Hhi].
    unfold Qle. cbn [Qnum Qden].
    change (Z.pos (2 ^ 53)) with (2 ^ 53)%Z. lia.
Qed.

Lemma uniform_jitter g :
  exists jitter, uniform 3.5 5.5 g = Some (jitter, drop 1 g)
    /\ (3.5 <= jitter)%Q /\ (jitter <= 5.5)%Q.
Proof.
  destruct (uniform_rest 3.5 5.5 g) as [jitter Hj]. exists jitter.
  split; [done|]. unfold uniform, bind, ret in Hj.
  destruct (random_unit g) as (x & g' & Hx & Hlo & Hhi).
  rewrite Hx in Hj. injection Hj as <- _. split; lra.
Qed.

Lemma get_background_image_rest (bgImages : gmap string (list string))
    bg_type g r g' :
  get_background_image bgImages bg_type g = Some (r, g') ->
  g' = drop (match r with Some _ => 1 | None => 0 end) g.
Proof.
  unfold get_background_image.
  destruct (default [] (bgImages !! bg_type)) as [|f files].
  - by intros [= <- <-].
  - unfold bind.
    destruct (choice (f :: files) g) as [[p g1]|] eqn:Hc; [|done].
    intros [= <- <-]. by apply choice_rest in Hc.
Qed.

Lemma drawn_indices_drop n c g :
  drawn_indices n (drop c g) ⊆ drawn_indices n g.
Proof.
  intros i. unfold drawn_indices. rewrite !elem_of_list_to_set.
  intros (h & -> & Hh)%list_elem_of_fmap. apply list_elem_of_fmap.
  exists h. split; [done|]. by apply (subseteq_drop c g).
Qed.

Lemma can_build_drop load_type target_present c g :
  c <= 2 ->
  can_build load_type target_present (drop 2 g) ->
  can_build load_type target_present (drop c g).
Proof.
  intros Hc [?|[?|Hfive]]; [by left|by right; left|]. right. right.
  unfold five_letters in *. etrans; [exact Hfive|].
  apply subseteq_size.
  replace (drop 2 g) with (drop (2 - c) (drop c g))
    by (rewrite drop_drop; f_equal; lia).
  apply drawn_indices_drop.
Qed.

(** The body of the loop, spelled out: a jitter within its bounds and an
    image of the trial's own pool are drawn with at most two draws; then
    [make_letter_string] is called, and when it returns, the body
    returns [trial_result]. *)
Lemma trial_body_run bgImages trial g :
  exists jitter img_path c,
    ((3.5 <= jitter)%Q /\ (jitter <= 5.5)%Q)
    /\ match img_path with
       | Some path => path ∈ pool_of bgImages trial
       | None => pool_of bgImages trial = []
       end
    /\ c <= 2
    /\ forall exp_info i env st,
         trial_body exp_info bgImages i trial env st g
         = match make_letter_string (Trial.load trial)
                   (Trial.target_present trial) (drop c g) with
           | Some (letters, g') =>
               Some (trial_result exp_info i trial env st jitter img_path
                                  letters, g')
           | None => None
           end.
Proof.
  destruct (uniform_jitter g) as (jitter & Hj & Hbounds).
  destruct (get_background_image_spec bgImages (Trial.background_type trial)
              (drop 1 g)) as (img_path & g2 & Himg & Hpool).
  pose proof (get_background_image_rest _ _ _ _ _ Himg) as Hg2.
  rewrite drop_drop in Hg2.
  exists jitter, img_path,
    (1 + match img_path with Some _ => 1 | None => 0 end).
  split; [done|]. split; [exact Hpool|].
  split; [destruct img_path; simpl; lia|].
  intros exp_info i env st. unfold trial_body, trial_result, trial_row.
  cbn zeta. unfold bind at 1. rewrite Hj.
  destruct (fixation_loop jitter (Display.win_color (State.display st))
              (Env.fixation env) (State.key_buffer st)) as [fix_frames buf].
  unfold bind at 1. rewrite Himg. unfold bind at 1. rewrite <- Hg2.
  destruct (make_letter_string (Trial.load trial)
              (Trial.target_present trial) g2) as [[letters g3]|]; [|done].
  unfold cancelled.
  destruct img_path as [path|]; cbn [Display.win_color Display.bg_image fst];
    rewrite !present_response;
    by destruct (decide _);
      [rewrite bool_decide_eq_true_2|rewrite bool_decide_eq_false_2].
Qed.

(** Whatever the body returns is a [trial_result]. *)
Lemma trial_body_inv exp_info bgImages i trial env st g r g' :
  trial_body exp_info bgImages i trial env st g = Some (r, g') ->
  exists jitter img_path letters,
    ((3.5 <= jitter)%Q /\ (jitter <= 5.5)%Q)
    /\ match img_path with
       | Some path => path ∈ pool_of bgImages trial
       | None => pool_of bgImages trial = []
       end
    /\ letter_string_shape (Trial.load trial) (Trial.target_present trial)
                           letters
    /\ r = trial_result exp_info i trial env st jitter img_path letters.
Proof.
  destruct (trial_body_run bgImages trial g)
    as (jitter & img_path & c & Hbounds & Hpool & _ & ->).
  destruct (make_letter_string _ _ (drop c g)) as [[letters g3]|] eqn:Hl;
    [|done].
  intros [= <- <-]. exists jitter, img_path, letters.
  repeat split; try done; try tauto.
  by eapply make_letter_string_shape.
Qed.

(** The body returns whenever the letter string can be built from the
    draws left after the jitter and the image. *)
Lemma trial_body_returns exp_info bgImages i trial env st g :
  can_build (Trial.load trial) (Trial.target_present trial) (drop 2 g) ->
  exists r g', trial_body exp_info bgImages i trial env st g = Some (r, g').
Proof.
  intros Hcan.
  destruct (trial_body_run bgImages trial g)
    as (jitter & img_path & c & _ & _ & Hc & ->).
  destruct (make_letter_string_returns (Trial.load trial)
              (Trial.target_present trial) (drop c g))
    as (letters & g' & ->); [by apply can_build_drop|].
  by eexists _, _.
Qed.

(** On a spread source the body takes at most 13 draws. *)
Lemma trial_body_rest exp_info bgImages i trial env st g :
  spread g = true -> 7 <= length g ->
  exists r c,
    trial_body exp_info bgImages i trial env st g = Some (r, drop c g)
    /\ c <= 13.
Proof.
  intros Hspread Hlen.
  destruct (trial_body_run bgImages trial g)
    as (jitter & img_path & c & _ & _ & Hc & ->).
  destruct (make_letter_string_rest (Trial.load trial)
              (Trial.target_present trial) (drop c g))
    as (letters & c' & -> & Hc').
  { right. right. split; [by apply spread_drop|]. rewrite length_drop. lia. }
  rewrite drop_drop. eexists _, (c + c'). split; [done|lia].
Qed.

(** C8: a trial in which no response key is recorded before the 1.5 s
    deadline still appends its Trial Record, marked incorrect, with empty
    [response_key] and [rt]; the loop goes on.  (The trial gets to its
    response window whenever its letter string can be built from the
    draws left after the jitter and the image.) *)
Theorem C8_no_response_recorded exp_info bgImages i trial env st g :
  recorded_response (Env.stimulus env) = None ->
  (forall r g',
     trial_body exp_info bgImages i trial env st g = Some (r, g') ->
     exists st' row,
       r = (Continue, st')
       /\ State.results st' = State.results st ++ [row]
       /\ Row.trial_index row = i
       /\ Row.response_key row = ""
       /\ Row.rt row = VStr ""
       /\ Row.correct row = 0)
  /\ (can_build (Trial.load trial) (Trial.target_present trial) (drop 2 g) ->
      exists r g', trial_body exp_info bgImages i trial env st g = Some (r, g')).
Proof.
  intros Hnone. split; [|apply trial_body_returns].
  intros r g' (jitter & img_path & letters & _ & _ & _ & ->)%trial_body_inv.
  unfold trial_result, trial_row. cbn zeta.
  rewrite decide_False by (unfold cancelled; by rewrite Hnone).
  rewrite Hnone. eexists _, _. split; [reflexivity|]. by repeat split.
Qed.

Lemma C8_no_response_recorded_witness :
  exists st' g' row,
    trial_body (ExpInfo.mk "P01" "1") ∅ 1 (Trial.mk "low" "ai" true)
               Env.silent State.initial [] = Some ((Continue, st'), g')
    /\ State.results st' = State.results State.initial ++ [row]
    /\ Row.trial_index row = 1
    /\ Row.response_key row = ""
    /\ Row.rt row = VStr ""
    /\ Row.correct row = 0.
Proof.
  destruct (C8_no_response_recorded (ExpInfo.mk "P01" "1") ∅ 1
              (Trial.mk "low" "ai" true) Env.silent State.initial []
              eq_refl) as [Hrecord Hreturns].
  destruct Hreturns as (r & g' & Hrun); [by left|].
  destruct (Hrecord r g' Hrun) as (st' & row & -> & Hrow).
  exists st', g', row. split; [exact Hrun|exact Hrow].
Defined.

(** ** The session loop *)

(** The loop runs to its end on a spread source that holds 13 draws for
    every trial. *)
Lemma trial_loop_returns exp_info bgImages trials : forall i envs st g,
  ample (length trials) g ->
  exists st' g', trial_loop exp_info bgImages i trials envs st g = Some (st', g').
Proof.
  induction trials as [|trial trials IH]; intros i envs st g [Hspread Hlen].
  - by exists st, g.
  - cbn [trial_loop]. unfold bind. cbn [length] in Hlen.
    destruct (trial_body_rest exp_info bgImages i trial
                (hd Env.silent envs) st g)
      as ([fl st1] & c & -> & Hc); [done|lia|].
    destruct fl; [|by eexists _, _].
    apply IH. split; [by apply spread_drop|]. rewrite length_drop. lia.
Qed.

(** C3 (as stated) fails: the cancel key that arrives after a "z" was
    recorded in the same trial is dropped; the trial appends its record. *)
Lemma C3_cancel_after_response_counterexample :
  ~ (forall exp_info bgImages i trial rest envs st g st' g',
       cancel_pressed (hd Env.silent envs) ->
       trial_loop exp_info bgImages i (trial :: rest) envs st g = Some (st', g') ->
       State.results st' = State.results st).
Proof.
  intros Hclaim.
  pose (env := Env.mk []
                 [Tick.mk 0.05 [("z", 0.04%Q)];
                  Tick.mk 0.1 [("escape", 0.09%Q)]]).
  assert (Hcancel : cancel_pressed (hd Env.silent [env])).
  { unfold cancel_pressed. simpl. apply Exists_cons_tl, Exists_cons_hd.
    simpl. apply list_elem_of_here. }
  destruct (trial_loop (ExpInfo.mk "P01" "1") ∅ 1
              [Trial.mk "low" "ai" true; Trial.mk "high" "paper" false]
              [env] State.initial []) as [[st' g']|] eqn:Hrun.
  - specialize (Hclaim _ _ _ _ _ _ _ _ _ _ Hcancel Hrun).
    vm_compute in Hrun. injection Hrun as <- <-. discriminate Hclaim.
  - vm_compute in Hrun. discriminate Hrun.
Qed.

(** C3 (amended): when the response recorded for a trial (the first of
    z, m, escape polled between stimulus onset and the deadline) is the
    cancel key, the loop stops in that trial: no Trial Record is appended
    for it, no later trial runs, and the records of the trials completed
    before are kept.  (The trial gets to its response window whenever its
    letter string can be built from the draws left after the jitter and
    the image.) *)
Theorem C3_cancel_recorded exp_info bgImages i trial rest envs st g t :
  recorded_response (Env.stimulus (hd Env.silent envs)) = Some ("escape", t) ->
  (forall r g',
     trial_body exp_info bgImages i trial (hd Env.silent envs) st g
       = Some (r, g') ->
     exists st',
       r = (Break, st')
       /\ trial_loop exp_info bgImages i (trial :: rest) envs st g
          = Some (st', g')
       /\ State.results st' = State.results st
       /\ length (State.screen st') = S (length (State.screen st)))
  /\ (can_build (Trial.load trial) (Trial.target_present trial) (drop 2 g) ->
      exists r g',
        trial_body exp_info bgImages i trial (hd Env.silent envs) st g
        = Some (r, g')).
Proof.
  intros Hesc. split; [|apply trial_body_returns].
  intros r g' Hrun. cbn [trial_loop]. unfold bind. rewrite Hrun.
  apply trial_body_inv in Hrun
    as (jitter & img_path & letters & _ & _ & _ & ->).
  unfold trial_result. cbn zeta.
  rewrite decide_True by (unfold cancelled; by rewrite Hesc).
  eexists. split; [reflexivity|]. split; [reflexivity|].
  split; [reflexivity|].
  cbn [State.screen]. rewrite length_app. simpl. lia.
Qed.

Lemma C3_cancel_recorded_witness :
  exists st' g',
    trial_body (ExpInfo.mk "P01" "1") ∅ 1 (Trial.mk "low" "ai" true)
      (hd Env.silent [Env.mk [] [Tick.mk 0.05 [("escape", 0.04%Q)]]])
      State.initial [] = Some ((Break, st'), g')
    /\ trial_loop (ExpInfo.mk "P01" "1") ∅ 1
         [Trial.mk "low" "ai" true; Trial.mk "high" "paper" false]
         [Env.mk [] [Tick.mk 0.05 [("escape", 0.04%Q)]]]
         State.initial [] = Some (st', g')
    /\ State.results st' = State.results State.initial
    /\ length (State.screen st') = S (length (State.screen State.initial)).
Proof.
  destruct (C3_cancel_recorded (ExpInfo.mk "P01" "1") ∅ 1
              (Trial.mk "low" "ai" true) [Trial.mk "high" "paper" false]
              [Env.mk [] [Tick.mk 0.05 [("escape", 0.04%Q)]]]
              State.initial [] 0.04%Q eq_refl) as [Hstop Hreturns].
  destruct Hreturns as (r & g' & Hrun); [by left|].
  destruct (Hstop r g' Hrun) as (st' & -> & Hloop).
  exists st', g'. split; [exact Hrun|exact Hloop].
Defined.

(** The cancel key pressed while the fixation cross is shown is cleared
    with the event buffer before the stimulus: the trial is scored. *)
Example cancel_during_fixation_is_dropped :
  let env := Env.mk [Tick.mk 0 [("escape", 0%Q)]] [] in
  (fun r => (r.1.1, length (State.results r.1.2)))
    <$> trial_body (ExpInfo.mk "P01" "1") ∅ 1 (Trial.mk "low" "ai" true)
                   env State.initial []
  = Some (Continue, 1).
Proof. vm_compute. reflexivity. Qed.

(** ** The screen during a session *)







(** ** The end of the script *)

(** The save block, were it reached, would write the header row and one
    row per accumulated record to the session file. *)
Lemma save_results_writes path results w :
  (save_results path results w).1 = Done tt
  /\ World.files (save_results path results w).2 !! path
     = Some ((VStr <$> fieldnames) :: (writerow <$> results)).
Proof. split; [done|]. simpl. by rewrite lookup_insert_eq. Qed.

(** A record without a response is written with two empty cells. *)
Lemma writerow_no_response row :
  Row.response_key row = "" -> Row.rt row = VStr "" ->
  writerow row !! 7 = Some (VStr "") /\ writerow row !! 8 = Some (VStr "").
Proof. intros Hk Hrt. unfold writerow. by rewrite Hk, Hrt. Qed.

(** No run of the script gets past [core.quit()]: the save block is
    never reached, and the file store is left as it was found. *)
Lemma main_never_saves r w :
  exists o g', main r w = (o, World.mk g' (World.files w)) /\ o <> Done tt.
Proof.
  destruct w as [g files]. unfold main, pbind.
  destruct (Run.dlg_OK r); simpl; [|by exists Quit, g].
  unfold lift at 1. cbn [World.rng World.files].
  destruct (generate_trials_design g) as (trials & g1 & -> & _).
  case_bool_decide; [by exists Quit, g1|]. cbn [pret].
  unfold lift. cbn [World.rng World.files].
  destruct (trial_loop (Run.exp_info r) (Run.bgImages r) 1 trials
              (Run.envs r) State.initial g1) as [[st g2]|].
  - by exists Quit, g2.
  - by exists Raised, g1.
Qed.

(** C1 (the code departs from it): a session of 40 trials without any key
    press accumulates 40 Trial Records, and the script then quits with
    the file store still empty: the session file is never written. *)
Theorem C1_completed_session_not_saved :
  let r := Run.mk true (ExpInfo.mk "P01" "1") ∅ "20260101_120000"
                  ["space"] [] in
  let w := World.mk (seq 0 600) ∅ in
  length <$> session_results r (seq 0 600) = Some 40
  /\ (main r w).1 = Quit
  /\ World.files (main r w).2 !! filepath r = None.
Proof.
  intros r w. repeat split; vm_compute; reflexivity.
Qed.

(** The same after a cancellation in the second trial: one record is
    held, none is written. *)
Example cancelled_session_not_saved :
  let r := Run.mk true (ExpInfo.mk "P01" "1") ∅ "20260101_120000"
                  ["space"]
                  [Env.silent; Env.mk [] [Tick.mk 0.05 [("escape", 0.04%Q)]]] in
  let w := World.mk (seq 0 600) ∅ in
  length <$> session_results r (seq 0 600) = Some 1
  /\ (main r w).1 = Quit
  /\ World.files (main r w).2 = ∅.
Proof. intros r w. repeat split; vm_compute; reflexivity. Qed.

(* ================================================================== *)
(** * Part III: the rest of the script                                 *)
(* ================================================================== *)

(** ** File names and extensions *)

Lemma endswith_spec s suffix :
  endswith s suffix = true <-> exists stem, s = stem +:+ suffix.
Proof.
  induction s as [|c s IH]; cbn [endswith].
  - rewrite orb_false_r, bool_decide_eq_true. split.
    + intros <-. by exists "".
    + intros [[|c stem] Hs]; simpl in Hs; [done|discriminate].
  - rewrite orb_true_iff, bool_decide_eq_true, IH. split.
    + intros [<-|[stem ->]]; [by exists ""|by exists (String c stem)].
    + intros [[|c' stem] Hs]; simpl in Hs; [by left|].
      injection Hs as <- ->. right. by exists stem.
Qed.

Lemma lower_ascii_idemp c : lower_ascii (lower_ascii c) = lower_ascii c.
Proof. by destruct c as [[] [] [] [] [] [] [] []]. Qed.

Lemma lower_idemp s : lower (lower s) = lower s.
Proof.
  induction s as [|c s IH]; simpl; [done|].
  by rewrite lower_ascii_idemp, IH.
Qed.

Lemma is_image_file_spec f :
  is_image_file f = true
  <-> exists stem ext, ext ∈ image_extensions /\ lower f = stem +:+ ext.
Proof.
  unfold is_image_file. rewrite existsb_exists. split.
  - intros (ext & Hext%list_elem_of_In & (stem & Hs)%endswith_spec).
    by exists stem, ext.
  - intros (stem & ext & Hext%list_elem_of_In & Hs).
    exists ext. split; [done|]. apply endswith_spec. by exists stem.
Qed.

(** ** The loading loop *)

Lemma load_folder_pools dirs acc bg_type :
  (load_folder dirs acc bg_type).1
  = <[bg_type := scanned_pool dirs bg_type]> acc.1.
Proof.
  destruct acc as [bgImages printed]. unfold load_folder, scanned_pool.
  by destruct (dirs !! path_join bgFolder bg_type).
Qed.

Lemma load_folder_printed dirs acc bg_type :
  (load_folder dirs acc bg_type).2
  = acc.2 ++ (if decide (scanned_pool dirs bg_type = [])
              then [expected_warning dirs bg_type] else []).
Proof.
  destruct acc as [bgImages printed].
  unfold load_folder, scanned_pool, expected_warning.
  destruct (dirs !! path_join bgFolder bg_type) as [listing|]; simpl.
  - destruct (path_join _ <$> filter _ listing) as [|p files]; simpl; [done|].
    by rewrite app_nil_r.
  - done.
Qed.

Lemma load_loop_pools dirs types : forall acc bg_type,
  (foldl (load_folder dirs) acc types).1 !! bg_type
  = if decide (bg_type ∈ types) then Some (scanned_pool dirs bg_type)
    else acc.1 !! bg_type.
Proof.
  induction types as [|t types IH]; intros acc bg_type; cbn [foldl].
  - rewrite decide_False; [done|]. apply not_elem_of_nil.
  - rewrite IH, load_folder_pools.
    destruct (decide (bg_type ∈ types)) as [Hin|Hnin].
    + rewrite decide_True; [done|]. by right.
    + destruct (decide (t = bg_type)) as [->|Hne].
      * rewrite lookup_insert_eq, decide_True; [done|]. by left.
      * rewrite lookup_insert_ne by done.
        rewrite decide_False; [done|].
        intros [?|?]%elem_of_cons; congruence.
Qed.

Lemma load_loop_printed dirs types : forall acc,
  (foldl (load_folder dirs) acc types).2
  = acc.2 ++ (expected_warning dirs
                <$> filter (fun t => scanned_pool dirs t = []) types).
Proof.
  induction types as [|t types IH]; intros acc; cbn [foldl].
  - by rewrite app_nil_r.
  - rewrite IH, load_folder_printed, filter_cons, <- app_assoc.
    by destruct (decide (scanned_pool dirs t = [])).
Qed.

Lemma scanned_pool_elem dirs bg_type p :
  p ∈ scanned_pool dirs bg_type
  <-> exists listing f,
        dirs !! path_join bgFolder bg_type = Some listing
        /\ f ∈ listing /\ is_image_file f = true
        /\ p = path_join (path_join bgFolder bg_type) f.
Proof.
  unfold scanned_pool.
  destruct (dirs !! path_join bgFolder bg_type) as [listing|].
  - rewrite list_elem_of_fmap. split.
    + intros (f & -> & [Himg Hf]%list_elem_of_filter). by exists listing, f.
    + intros (? & f & [= <-] & Hf & Himg & ->).
      exists f. split; [done|]. by apply list_elem_of_filter.
  - split; [by intros ?%elem_of_nil|]. by intros (? & ? & ? & _).
Qed.

Lemma filter_ext_elem {A} (P1 P2 : A -> Prop)
    `{!forall x, Decision (P1 x), !forall x, Decision (P2 x)} (l : list A) :
  (forall x, x ∈ l -> P1 x <-> P2 x) -> filter P1 l = filter P2 l.
Proof.
  induction l as [|x l IH]; intros Hext; [done|].
  rewrite !filter_cons, IH.
  - pose proof (Hext x (list_elem_of_here x l)) as Hx.
    destruct (decide (P1 x)), (decide (P2 x)); try done; exfalso; tauto.
  - intros y Hy. apply Hext. by right.
Qed.

(** X1: after loading, [bgImages] has an entry for exactly the four
    background types, and the entry of a type whose folder does not
    exist is the empty list. *)
Theorem load_backgrounds_entries dirs :
  let bgImages := (load_backgrounds dirs).1 in
  (forall bg_type, is_Some (bgImages !! bg_type) <-> bg_type ∈ backgroundTypes)
  /\ Forall (fun bg_type =>
               dirs !! path_join bgFolder bg_type = None ->
               bgImages !! bg_type = Some []) backgroundTypes.
Proof.
  cbn zeta. unfold load_backgrounds. split.
  - intros bg_type. rewrite load_loop_pools. simpl.
    destruct (decide (bg_type ∈ backgroundTypes)) as [Hin|Hnin].
    + split; [done|]. by eexists.
    + rewrite lookup_empty. split; [by intros [? ?]|done].
  - apply Forall_forall. intros bg_type Hin Hmissing.
    rewrite load_loop_pools, decide_True by done.
    unfold scanned_pool. by rewrite Hmissing.
Qed.

(** X2: a path is in the pool of a type exactly when the type is one of
    the four, its folder exists, and the path is that folder joined with
    a listed name that ends, ignoring case, in .png, .jpg, .jpeg or .bmp. *)
Theorem load_backgrounds_pool dirs bg_type p :
  p ∈ default [] ((load_backgrounds dirs).1 !! bg_type)
  <-> bg_type ∈ backgroundTypes
      /\ exists listing f stem ext,
           dirs !! path_join bgFolder bg_type = Some listing
           /\ f ∈ listing
           /\ ext ∈ image_extensions /\ lower f = stem +:+ ext
           /\ p = path_join (path_join bgFolder bg_type) f.
Proof.
  unfold load_backgrounds. rewrite load_loop_pools. simpl.
  destruct (decide (bg_type ∈ backgroundTypes)) as [Hin|Hnin]; simpl.
  - rewrite scanned_pool_elem. split.
    + intros (listing & f & Hdir & Hf & (stem & ext & Hext & Hlow)%is_image_file_spec & ->).
      split; [done|]. by exists listing, f, stem, ext.
    + intros (_ & listing & f & stem & ext & Hdir & Hf & Hext & Hlow & ->).
      exists listing, f. repeat split; try done.
      apply is_image_file_spec. by exists stem, ext.
  - rewrite lookup_empty. simpl. split; [by intros ?%elem_of_nil|tauto].
Qed.

(** X3: the warnings printed at startup are, in the order of the types,
    one for each type whose pool is empty and none for any other type:
    "folder not found" if the folder is missing, "no image files" if it
    exists. *)
Theorem load_backgrounds_warnings dirs :
  let '(bgImages, printed) := load_backgrounds dirs in
  printed
  = expected_warning dirs
      <$> filter (fun t => bgImages !! t = Some []) backgroundTypes.
Proof.
  destruct (load_backgrounds dirs) as [bgImages printed] eqn:Hload.
  assert (Hp : printed = (load_backgrounds dirs).2) by (by rewrite Hload).
  assert (Hb : bgImages = (load_backgrounds dirs).1) by (by rewrite Hload).
  rewrite Hp. unfold load_backgrounds at 1. rewrite load_loop_printed. simpl.
  f_equal. apply filter_ext_elem. intros t Hin.
  rewrite Hb. unfold load_backgrounds. rewrite load_loop_pools, decide_True by done.
  split; [by intros ->|by intros [= ->]].
Qed.

(** X4: an image chosen for a type after loading is a listed image file
    of that type's own folder; no image is chosen only when the folder of
    the type is missing or lists no image file (or the type is unknown). *)
Theorem background_choice_after_loading dirs bg_type g :
  exists r g',
    get_background_image (load_backgrounds dirs).1 bg_type g = Some (r, g')
    /\ match r with
       | Some p =>
           bg_type ∈ backgroundTypes
           /\ exists listing f,
                dirs !! path_join bgFolder bg_type = Some listing
                /\ f ∈ listing /\ is_image_file f = true
                /\ p = path_join (path_join bgFolder bg_type) f
       | None =>
           bg_type ∉ backgroundTypes
           \/ dirs !! path_join bgFolder bg_type = None
           \/ exists listing,
                dirs !! path_join bgFolder bg_type = Some listing
                /\ Forall (fun f => is_image_file f = false) listing
       end.
Proof.
  destruct (get_background_image_spec (load_backgrounds dirs).1 bg_type g)
    as (r & g' & Hr & Hpool).
  exists r, g'. split; [done|].
  unfold load_backgrounds in Hpool. rewrite load_loop_pools in Hpool.
  simpl in Hpool.
  destruct (decide (bg_type ∈ backgroundTypes)) as [Hin|Hnin]; simpl in Hpool.
  - destruct r as [p|].
    + split; [done|]. by apply scanned_pool_elem.
    + right. unfold scanned_pool in Hpool.
      destruct (dirs !! path_join bgFolder bg_type) as [listing|]; [|by left].
      right. exists listing. split; [done|].
      apply fmap_nil_inv in Hpool. apply Forall_forall. intros f Hf.
      destruct (is_image_file f) eqn:Himg; [|done].
      assert (Hin' : f ∈ filter (fun f => is_image_file f = true) listing)
        by (by apply list_elem_of_filter).
      rewrite Hpool in Hin'. by apply elem_of_nil in Hin'.
  - destruct r as [p|]; [|by left].
    rewrite lookup_empty in Hpool. by apply elem_of_nil in Hpool.
Qed.

(** ** More on the letter strings *)

Lemma non_target_letters_alphabet l :
  l ∈ non_target_letters -> l ∈ iter_str "ABCDEFGHIJKLMNOPQRSTUVWXYZ".
Proof. unfold non_target_letters. intros Hl%list_elem_of_filter. tauto. Qed.

Lemma iter_str_inj s1 s2 : iter_str s1 = iter_str s2 -> s1 = s2.
Proof.
  revert s2. induction s1 as [|c s1 IH]; intros [|c2 s2] Heq;
    simplify_eq/=; [done|]. f_equal. by apply IH.
Qed.

(** The letters a string is made of: the target or members of the
    non-target list. *)
Lemma make_letter_string_letters load_type target_present g s g' :
  make_letter_string load_type target_present g = Some (s, g') ->
  Forall (fun l => (target_present = true /\ l = target_letter)
                   \/ l ∈ non_target_letters) (iter_str s).
Proof.
  intros [[Hlow (letter & Hl & ->)]
         |[Hhigh (chosen & Hlen & Hnd & Hsub & Hperm)]]%make_letter_string_inv.
  - destruct target_present.
    + subst letter. rewrite iter_str_mul by apply target_letter_one_char.
      apply Forall_replicate. by left.
    + rewrite iter_str_mul
        by exact (proj1 (Forall_forall _ _) non_target_letters_one_char _ Hl).
      apply Forall_replicate. by right.
  - rewrite Hperm. destruct target_present.
    + constructor; [by left|]. eapply Forall_impl; [exact Hsub|]. by right.
    + eapply Forall_impl; [exact Hsub|]. by right.
Qed.

(** X5: a load type other than "low" (not only "high") takes the
    high-load branch: six distinct characters, the target exactly once
    if present and not at all otherwise.  (The string is returned on
    every source when the target is absent, and on every source that
    holds draws for five different letters when it is present.) *)
Theorem make_letter_string_not_low load_type target_present g :
  load_type <> "low" ->
  (forall s g',
     make_letter_string load_type target_present g = Some (s, g') ->
     length (iter_str s) = 6 /\ NoDup (iter_str s)
     /\ count target_letter s = if target_present then 1 else 0)
  /\ (can_build load_type target_present g ->
      exists s g', make_letter_string load_type target_present g = Some (s, g')).
Proof.
  intros Hload. split; [|apply make_letter_string_returns].
  intros s g' Hshape%make_letter_string_shape. unfold count.
  destruct Hshape as [letter Hlow _ _ _ | chosen _ Hnd Hx Hlen Hperm];
    [done|].
  rewrite Hperm. destruct target_present.
  - split; [simpl; lia|]. split; [by constructor|].
    rewrite filter_cons_True by done. simpl. by rewrite count_absent.
  - split; [done|]. split; [done|]. by rewrite count_absent.
Qed.

Lemma make_letter_string_not_low_witness :
  exists s g',
    make_letter_string "medium" true [7; 3; 7; 1; 4; 1; 5] = Some (s, g')
    /\ length (iter_str s) = 6 /\ NoDup (iter_str s)
    /\ count target_letter s = 1.
Proof.
  destruct (make_letter_string_not_low "medium" true [7; 3; 7; 1; 4; 1; 5])
    as [Hhigh Hreturns]; [done|].
  destruct Hreturns as (s & g' & Hs).
  { right. right. unfold five_letters. vm_compute. lia. }
  exists s, g'. split; [exact Hs|]. exact (Hhigh s g' Hs).
Defined.

(** X6: a low-load string is one letter written six times: the target
    when it is present, otherwise one of the 25 non-target letters. *)
Theorem make_letter_string_low target_present g :
  exists s g' letter,
    make_letter_string "low" target_present g = Some (s, g')
    /\ s = str_mul letter 6
    /\ one_char letter
    /\ if target_present then letter = target_letter
       else letter ∈ non_target_letters.
Proof.
  destruct (make_letter_string_returns "low" target_present g)
    as (s & g' & Hs); [by left|].
  pose proof (make_letter_string_shape _ _ _ _ _ Hs) as Hshape.
  pose proof (make_letter_string_letters _ _ _ _ _ Hs) as Hletters.
  destruct Hshape as [letter _ H1 Hl Hiter | chosen Hhigh _ _ _ _]; [|done].
  exists s, g', letter. split; [done|]. split.
  - apply iter_str_inj. by rewrite Hiter, iter_str_mul.
  - split; [done|]. destruct target_present; [done|].
    rewrite Hiter in Hletters. apply Forall_cons in Hletters as [[[? _]|?] _];
      done.
Qed.

(** X7: every character of a generated string is one of the capital
    letters A to Z, and the target occurs only when it is present.  (The
    string is returned on every source for a low load or an absent
    target, and otherwise on every source that holds draws for five
    different letters.) *)
Theorem make_letter_string_alphabet load_type target_present g :
  (forall s g',
     make_letter_string load_type target_present g = Some (s, g') ->
     Forall (fun l => l ∈ iter_str "ABCDEFGHIJKLMNOPQRSTUVWXYZ") (iter_str s)
     /\ (target_present = false -> target_letter ∉ iter_str s))
  /\ (can_build load_type target_present g ->
      exists s g', make_letter_string load_type target_present g = Some (s, g')).
Proof.
  split; [|apply make_letter_string_returns].
  intros s g' Hletters%make_letter_string_letters. split.
  - eapply Forall_impl; [exact Hletters|].
    intros l [[_ ->]|Hl]; [|by apply non_target_letters_alphabet].
    by apply (bool_decide_unpack _).
  - intros -> Hx.
    apply (proj1 (Forall_forall _ _) Hletters) in Hx as [[? _]|Hx]; [done|].
    by apply (non_target_letters_not_target _ Hx).
Qed.

Lemma make_letter_string_alphabet_witness :
  exists s g',
    make_letter_string "high" true [20; 45; 8; 8; 11; 0; 14] = Some (s, g')
    /\ Forall (fun l => l ∈ iter_str "ABCDEFGHIJKLMNOPQRSTUVWXYZ") (iter_str s).
Proof.
  destruct (make_letter_string_alphabet "high" true [20; 45; 8; 8; 11; 0; 14])
    as [Hletters Hreturns].
  destruct Hreturns as (s & g' & Hs).
  { right. right. unfold five_letters. vm_compute. lia. }
  exists s, g'. split; [exact Hs|]. exact (proj1 (Hletters s g' Hs)).
Defined.

(** ** More on the generated trial list *)

(** X8: the generated list is balanced on every factor: 20 trials per
    load, 10 per background type, 24 with the target and 16 without; and
    every trial's load and background type are among the declared ones. *)
Theorem generate_trials_marginals g :
  exists trials g', generate_trials g = Some (trials, g')
    /\ Forall (fun load =>
         length (filter (fun t => Trial.load t = load) trials) = 20) loads
    /\ Forall (fun bg_type =>
         length (filter (fun t => Trial.background_type t = bg_type) trials)
         = 10) backgroundTypes
    /\ length (filter (fun t => Trial.target_present t = true) trials) = 24
    /\ length (filter (fun t => Trial.target_present t = false) trials) = 16
    /\ Forall (fun t => Trial.load t ∈ loads
                        /\ Trial.background_type t ∈ backgroundTypes) trials.
Proof.
  destruct (generate_trials_design g) as (trials & g' & Hgen & Hperm).
  exists trials, g'. split; [done|].
  assert (Hl : forall l, length (filter (fun t => Trial.load t = l) trials)
                 = length (filter (fun t => Trial.load t = l) design))
    by (intros l; by rewrite Hperm).
  assert (Hb : forall b,
             length (filter (fun t => Trial.background_type t = b) trials)
             = length (filter (fun t => Trial.background_type t = b) design))
    by (intros b; by rewrite Hperm).
  split; [repeat constructor; rewrite Hl; by vm_compute|].
  split; [repeat constructor; rewrite Hb; by vm_compute|].
  rewrite !Hperm. split; [by vm_compute|]. split; [by vm_compute|].
  apply (bool_decide_unpack _). by vm_compute.
Qed.

(** ** More on the response loops *)

Lemma Qltb_false a b : (b <= a)%Q -> Qltb a b = false.
Proof. intros Hle. unfold Qltb. by apply Qle_bool_iff in Hle as ->. Qed.

Lemma Qltb_mono a b c : (b <= c)%Q -> Qltb a b = true -> Qltb a c = true.
Proof.
  unfold Qltb. intros Hbc Hab. apply negb_true_iff in Hab.
  apply negb_true_iff. destruct (Qle_bool c a) eqn:Hca; [|done].
  apply Qle_bool_iff in Hca.
  assert (Hba : (b <= a)%Q) by (by eapply Qle_trans).
  apply Qle_bool_iff in Hba. congruence.
Qed.

Lemma record_response_Some keys e : record_response keys (Some e) = Some e.
Proof. by destruct keys. Qed.

Lemma record_response_origin (E : string * Q -> Prop) keyList buffer r :
  Forall E buffer ->
  (forall e, r = Some e -> e.1 ∈ keyList /\ E e) ->
  forall e, record_response (getKeys keyList buffer).1 r = Some e ->
            e.1 ∈ keyList /\ E e.
Proof.
  intros Hb Hr e. unfold getKeys, record_response. cbn [fst].
  destruct (filter _ buffer) as [|k keys] eqn:Hkeys; [by destruct r; auto|].
  destruct r as [e0|]; [auto|]. intros [= <-].
  assert (Hk : k ∈ filter (fun k => k.1 ∈ keyList) buffer)
    by (rewrite Hkeys; apply list_elem_of_here).
  apply list_elem_of_filter in Hk as [Hkey Hin].
  split; [done|]. exact (proj1 (Forall_forall _ _) Hb k Hin).
Qed.

Lemma getKeys_rest (E : string * Q -> Prop) keyList buffer :
  Forall E buffer -> Forall E (getKeys keyList buffer).2.
Proof.
  intros Hb. apply Forall_forall. intros e [_ He]%list_elem_of_filter.
  exact (proj1 (Forall_forall _ _) Hb e He).
Qed.

Lemma part1_origin d img (E : string * Q -> Prop) ticks : forall b r fr,
  Forall E b ->
  Forall (fun t => Forall E (Tick.pressed t)) ticks ->
  (forall e, r = Some e -> e.1 ∈ response_keys /\ E e) ->
  let p := part1 d img ticks b r fr in
  Forall E (Poll.buffer p)
  /\ Forall (fun t => Forall E (Tick.pressed t)) (Poll.ticks p)
  /\ (forall e, Poll.response p = Some e -> e.1 ∈ response_keys /\ E e).
Proof.
  induction ticks as [|t ticks IH]; intros b r fr Hb Ht Hr; [done|].
  cbn [part1]. destruct (Qltb (Tick.clock t) 0.2); [|done].
  apply Forall_cons in Ht as [Ht Hts].
  assert (Hbt : Forall E (b ++ Tick.pressed t)) by (by apply Forall_app).
  pose proof (record_response_origin E response_keys _ r Hbt Hr) as Hr'.
  pose proof (getKeys_rest E response_keys _ Hbt) as Hb'.
  unfold getKeys in *. by apply IH.
Qed.

Lemma part2_origin d img (E : string * Q -> Prop) ticks : forall b r fr,
  Forall E b ->
  Forall (fun t => Forall E (Tick.pressed t)) ticks ->
  (forall e, r = Some e -> e.1 ∈ response_keys /\ E e) ->
  forall e, Poll.response (part2 d img ticks b r fr) = Some e ->
            e.1 ∈ response_keys /\ E e.
Proof.
  induction ticks as [|t ticks IH]; intros b r fr Hb Ht Hr; [done|].
  cbn [part2].
  destruct (Qltb (Tick.clock t) max_dur && bool_decide (r = None)); [|done].
  apply Forall_cons in Ht as [Ht Hts].
  assert (Hbt : Forall E (b ++ Tick.pressed t)) by (by apply Forall_app).
  pose proof (record_response_origin E response_keys _ r Hbt Hr) as Hr'.
  pose proof (getKeys_rest E response_keys _ Hbt) as Hb'.
  unfold getKeys in *. by apply IH.
Qed.

Lemma recorded_response_pressed ticks press :
  recorded_response ticks = Some press ->
  press.1 ∈ response_keys /\ press ∈ presses ticks.
Proof.
  intros Hrec. unfold recorded_response, present in Hrec.
  set (E := fun e : string * Q => e ∈ presses ticks).
  assert (Hticks : Forall (fun t => Forall E (Tick.pressed t)) ticks).
  { apply Forall_forall. intros t Ht. apply Forall_forall. intros e He.
    unfold E, presses. apply list_elem_of_In, in_flat_map.
    exists t. by rewrite <- !list_elem_of_In. }
  destruct (part1_origin Display.initial None E ticks [] None [])
    as (Hb & Ht & Hr); [done|done|done|].
  exact (part2_origin Display.initial None E _ _ _ _ Hb Ht Hr _ Hrec).
Qed.

(** X9: a recorded response is a press of z, m or escape that reached
    the buffer during the response window, with that press's own time
    stamp; no other key is ever recorded. *)
Theorem recorded_response_origin ticks key rt :
  recorded_response ticks = Some (key, rt) ->
  key ∈ response_keys /\ (key, rt) ∈ presses ticks.
Proof. apply recorded_response_pressed. Qed.

Lemma recorded_response_origin_witness :
  "m" ∈ response_keys
  /\ ("m", 0.31%Q) ∈ presses [Tick.mk 0.1 [("q", 0.05%Q)];
                              Tick.mk 0.4 [("m", 0.31%Q); ("z", 0.35%Q)]].
Proof.
  apply (recorded_response_origin
           [Tick.mk 0.1 [("q", 0.05%Q)];
            Tick.mk 0.4 [("m", 0.31%Q); ("z", 0.35%Q)]] "m" 0.31%Q).
  reflexivity.
Defined.

Lemma part1_deadline d img pre t post :
  (0.2 <= Tick.clock t)%Q ->
  forall b r fr,
    part1 d img (pre ++ t :: post) b r fr
    = let p := part1 d img pre b r fr in
      Poll.mk (Poll.ticks p ++ t :: post) (Poll.buffer p) (Poll.response p)
              (Poll.frames p).
Proof.
  intros Ht. induction pre as [|a pre IH]; intros b r fr.
  - cbn [app part1]. by rewrite Qltb_false.
  - cbn [app part1]. destruct (Qltb (Tick.clock a) 0.2); [|done].
    unfold getKeys. apply IH.
Qed.

Lemma part2_deadline d img pre t post :
  (max_dur <= Tick.clock t)%Q ->
  forall b r fr,
    Poll.response (part2 d img (pre ++ t :: post) b r fr)
    = Poll.response (part2 d img pre b r fr).
Proof.
  intros Ht. induction pre as [|a pre IH]; intros b r fr.
  - cbn [app part2]. by rewrite Qltb_false.
  - cbn [app part2].
    destruct (Qltb (Tick.clock a) max_dur && bool_decide (r = None)); [|done].
    unfold getKeys. apply IH.
Qed.

(** X10: nothing from the first clock reading at or after 1.5 s on is
    taken into account: the ticks that follow it, and the keys pressed in
    them, do not change the recorded response. *)
Theorem recorded_response_deadline pre t post :
  (max_dur <= Tick.clock t)%Q ->
  recorded_response (pre ++ t :: post) = recorded_response pre.
Proof.
  intros Ht. unfold recorded_response, present.
  rewrite part1_deadline by (by eapply Qle_trans; [|exact Ht]).
  cbn zeta. cbn [Poll.ticks Poll.buffer Poll.response Poll.frames].
  by apply part2_deadline.
Qed.

Lemma recorded_response_deadline_witness :
  recorded_response ([Tick.mk 0.1 []] ++ Tick.mk 1.5 [("z", 1.4%Q)]
                       :: [Tick.mk 0.3 [("m", 0.2%Q)]])
  = recorded_response [Tick.mk 0.1 []].
Proof.
  apply (recorded_response_deadline [Tick.mk 0.1 []]
           (Tick.mk 1.5 [("z", 1.4%Q)]) [Tick.mk 0.3 [("m", 0.2%Q)]]).
  by vm_compute.
Defined.

Lemma part1_app d img pre post : forall b r fr,
  part1 d img (pre ++ post) b r fr
  = let p := part1 d img pre b r fr in
    match Poll.ticks p with
    | [] => part1 d img post (Poll.buffer p) (Poll.response p) (Poll.frames p)
    | _ :: _ => Poll.mk (Poll.ticks p ++ post) (Poll.buffer p)
                        (Poll.response p) (Poll.frames p)
    end.
Proof.
  induction pre as [|a pre IH]; intros b r fr; [done|].
  cbn [app part1]. destruct (Qltb (Tick.clock a) 0.2); [|done].
  unfold getKeys. apply IH.
Qed.

Lemma part2_app d img pre post : forall b r fr,
  part2 d img (pre ++ post) b r fr
  = let p := part2 d img pre b r fr in
    match Poll.ticks p with
    | [] => part2 d img post (Poll.buffer p) (Poll.response p) (Poll.frames p)
    | _ :: _ => Poll.mk (Poll.ticks p ++ post) (Poll.buffer p)
                        (Poll.response p) (Poll.frames p)
    end.
Proof.
  induction pre as [|a pre IH]; intros b r fr; [done|].
  cbn [app part2].
  destruct (Qltb (Tick.clock a) max_dur && bool_decide (r = None)); [|done].
  unfold getKeys. apply IH.
Qed.

Lemma part1_keeps d img ticks e : forall b fr,
  Poll.response (part1 d img ticks b (Some e) fr) = Some e.
Proof.
  induction ticks as [|t ticks IH]; intros b fr; [done|].
  cbn [part1]. destruct (Qltb (Tick.clock t) 0.2); [|done].
  unfold getKeys. rewrite record_response_Some. apply IH.
Qed.

Lemma part2_stops d img ticks b e fr :
  Poll.response (part2 d img ticks b (Some e) fr) = Some e.
Proof.
  destruct ticks as [|t ticks]; [done|].
  cbn [part2]. by rewrite andb_false_r.
Qed.

(** X11: the first recorded key wins: once a response is recorded, no
    later tick or key press (a later escape included) changes it. *)
Theorem recorded_response_first_wins pre post e :
  recorded_response pre = Some e ->
  recorded_response (pre ++ post) = Some e.
Proof.
  unfold recorded_response, present. intros Hpre.
  rewrite part1_app. cbn zeta.
  destruct (part1 Display.initial None pre [] None [])
    as [ticks1 b1 r1 fr1] eqn:Hp1.
  cbn [Poll.ticks Poll.buffer Poll.response Poll.frames] in *.
  destruct ticks1 as [|a ticks1].
  - cbn [part2 Poll.response] in Hpre. subst r1.
    pose proof (part1_keeps Display.initial None post e b1 fr1) as Hkeep.
    destruct (part1 Display.initial None post b1 (Some e) fr1)
      as [ticks2 b2 r2 fr2].
    cbn [Poll.ticks Poll.buffer Poll.response Poll.frames] in *. subst r2.
    apply part2_stops.
  - cbn [Poll.ticks Poll.buffer Poll.response Poll.frames].
    rewrite part2_app. cbn zeta.
    destruct (part2 Display.initial None (a :: ticks1) b1 r1 fr1)
      as [ticks2 b2 r2 fr2].
    cbn [Poll.ticks Poll.buffer Poll.response Poll.frames] in *. subst r2.
    destruct ticks2; [apply part2_stops|done].
Qed.

Lemma recorded_response_first_wins_witness :
  recorded_response ([Tick.mk 0.05 [("z", 0.04%Q)]]
                       ++ [Tick.mk 0.1 [("escape", 0.09%Q)]])
  = Some ("z", 0.04%Q).
Proof.
  apply (recorded_response_first_wins [Tick.mk 0.05 [("z", 0.04%Q)]]
           [Tick.mk 0.1 [("escape", 0.09%Q)]] ("z", 0.04%Q)).
  reflexivity.
Defined.

(** ** What the response window shows, and for how long *)

Lemma part1_exposure d img ticks : forall b r fr,
  let p := part1 d img ticks b r fr in
  Poll.frames p
  = fr ++ replicate (leading_before 0.2 ticks)
            (Frame.mk (Display.win_color d)
               (draw_background d img ++ [LetterStim (Display.letter_stim d)]))
  /\ Poll.ticks p = drop (leading_before 0.2 ticks) ticks.
Proof.
  induction ticks as [|t ticks IH]; intros b r fr; cbn [part1 leading_before].
  - by rewrite app_nil_r.
  - destruct (Qltb (Tick.clock t) 0.2).
    + unfold getKeys. cbn zeta.
      destruct (IH (filter (fun k => k.1 ∉ response_keys) (b ++ Tick.pressed t))
                   (record_response
                      (filter (fun k => k.1 ∈ response_keys) (b ++ Tick.pressed t)) r)
                   (fr ++ [Frame.mk (Display.win_color d)
                             (draw_background d img
                                ++ [LetterStim (Display.letter_stim d)])]))
        as [-> ->].
      by rewrite <- app_assoc.
    + by rewrite app_nil_r.
Qed.

Lemma part2_exposure d img ticks : forall b r fr,
  exists m,
    Poll.frames (part2 d img ticks b r fr)
    = fr ++ replicate m (Frame.mk (Display.win_color d) (draw_background d img))
    /\ m <= leading_before max_dur ticks
    /\ (Poll.response (part2 d img ticks b r fr) = None ->
        m = leading_before max_dur ticks).
Proof.
  induction ticks as [|t ticks IH]; intros b r fr; cbn [part2 leading_before].
  - exists 0. by rewrite app_nil_r.
  - destruct (Qltb (Tick.clock t) max_dur); cbn [andb].
    + case_bool_decide as Hr.
      * unfold getKeys. cbn zeta.
        edestruct IH as (m & -> & Hle & Heq).
        exists (S m). split; [by rewrite <- app_assoc|].
        split; [lia|]. intros Hnone. by rewrite Heq.
      * exists 0. split; [by rewrite app_nil_r|]. split; [lia|].
        cbn [Poll.response]. by intros ->.
    + exists 0. by rewrite app_nil_r.
Qed.

Lemma leading_before_mono a b ticks :
  (a <= b)%Q -> leading_before a ticks <= leading_before b ticks.
Proof.
  intros Hab. induction ticks as [|t ticks IH]; cbn [leading_before]; [done|].
  destruct (Qltb (Tick.clock t) a) eqn:Ha; [|lia].
  rewrite (Qltb_mono _ _ _ Hab Ha). lia.
Qed.

Lemma leading_before_drop a b ticks :
  (a <= b)%Q ->
  leading_before a ticks
    + leading_before b (drop (leading_before a ticks) ticks)
  = leading_before b ticks.
Proof.
  intros Hab. induction ticks as [|t ticks IH]; cbn [leading_before]; [done|].
  destruct (Qltb (Tick.clock t) a) eqn:Ha.
  - rewrite (Qltb_mono _ _ _ Hab Ha). cbn [drop]. lia.
  - done.
Qed.

(** X12: the letter string is on the frames of exactly the leading ticks
    read before 0.2 s, whether or not a key was pressed meanwhile; the
    frames after them show the background alone, and no frame is flipped
    for a tick from the first reading at or after 1.5 s on.  Without a
    response the loops run up to that reading. *)
Theorem present_exposure d img ticks :
  exists m,
    Poll.frames (present d img ticks)
    = replicate (leading_before 0.2 ticks)
        (Frame.mk (Display.win_color d)
           (draw_background d img ++ [LetterStim (Display.letter_stim d)]))
      ++ replicate m (Frame.mk (Display.win_color d) (draw_background d img))
    /\ leading_before 0.2 ticks + m <= leading_before max_dur ticks
    /\ (recorded_response ticks = None ->
        leading_before 0.2 ticks + m = leading_before max_dur ticks).
Proof.
  rewrite <- (present_response d img). unfold present.
  destruct (part1_exposure d img ticks [] None []) as [Hfr Hticks].
  cbn zeta in Hfr, Hticks. rewrite Hfr, Hticks. cbn [app].
  edestruct part2_exposure as (m & -> & Hle & Heq).
  exists m. split; [done|].
  rewrite <- (leading_before_drop 0.2 max_dur ticks) by done.
  split; [lia|]. intros Hnone. by rewrite Heq.
Qed.

(** ** The records of a session *)

Lemma env_at_0 envs : env_at envs 0 = hd Env.silent envs.
Proof. by destruct envs. Qed.

Lemma env_at_S envs k : env_at envs (S k) = env_at (tl envs) k.
Proof. by destruct envs. Qed.

(** The trial list is generated with 71 draws: four for each of the
    eight cells and 39 for the list of 40. *)
Lemma for_each_rest {A S} (body : A -> S -> Rand S) c :
  (forall x s g s' g', body x s g = Some (s', g') -> g' = drop c g) ->
  forall xs s g s' g',
    for_each xs body s g = Some (s', g') -> g' = drop (c * length xs) g.
Proof.
  intros Hbody. induction xs as [|x xs IH]; intros s g s' g' Hrun.
  - injection Hrun as _ <-. by rewrite Nat.mul_0_r.
  - cbn [for_each] in Hrun. unfold bind in Hrun.
    destruct (body x s g) as [[s1 g1]|] eqn:Hx; [|done].
    apply Hbody in Hx as ->. apply IH in Hrun as ->.
    rewrite drop_drop. cbn [length]. f_equal. lia.
Qed.

Lemma append_cell_rest load bg_type trials g trials' g' :
  append_cell load bg_type trials g = Some (trials', g') -> g' = drop 4 g.
Proof.
  unfold append_cell, bind. intros Hrun.
  destruct (shuffle [true; true; true; false; false] g)
    as [[flags g1]|] eqn:Hsh; [|done].
  unfold shuffle in Hsh. apply shuffle_loop_rest in Hsh as ->.
  apply (for_each_rest _ 0) in Hrun as ->; [done|].
  by intros x s g0 s' g0' [= _ <-].
Qed.

Lemma generate_trials_rest g trials g' :
  generate_trials g = Some (trials, g') -> g' = drop 71 g.
Proof.
  intros Hgen.
  destruct (generate_trials_design g) as (trials' & g'' & Hgen' & Hperm).
  assert (trials' = trials) as -> by congruence. clear Hgen'.
  unfold generate_trials, bind in Hgen.
  destruct (for_each loads _ [] g) as [[trials0 g1]|] eqn:Hloop; [|done].
  destruct (shuffle_spec trials0 g1) as (trials1 & g2 & Hsh & Hperm0).
  rewrite Hsh in Hgen. injection Hgen as -> ->.
  unfold shuffle in Hsh. apply shuffle_loop_rest in Hsh as ->.
  apply (for_each_rest _ 16) in Hloop as ->.
  - rewrite drop_drop. f_equal.
    apply Permutation_length in Hperm0, Hperm.
    rewrite <- Hperm0, Hperm. reflexivity.
  - intros load s g0 s' g0' Hrow.
    apply (for_each_rest _ 4) in Hrow as ->; [done|].
    intros bg_type s1 g1' s1' g1''. apply append_cell_rest.
Qed.

(** The loop appends, in order, the record of every trial before the
    first cancelled one, and stops there. *)
Lemma trial_loop_rows exp_info bgImages trials : forall i envs st g st' g',
  trial_loop exp_info bgImages i trials envs st g = Some (st', g') ->
  exists new,
    State.results st' = State.results st ++ new
    /\ length new <= length trials
    /\ (forall k row, new !! k = Some row ->
          exists trial, trials !! k = Some trial
            /\ row_of exp_info (i + k) trial (env_at envs k) row)
    /\ (length new < length trials -> cancelled (env_at envs (length new))).
Proof.
  induction trials as [|trial trials IH]; intros i envs st g st' g' Hrun.
  - injection Hrun as <- <-. exists []. rewrite app_nil_r.
    repeat split; try done. simpl. lia.
  - cbn [trial_loop] in Hrun. unfold bind in Hrun.
    destruct (trial_body exp_info bgImages i trial (hd Env.silent envs) st g)
      as [[r g1]|] eqn:Hbody; [|done].
    apply trial_body_inv in Hbody
      as (jitter & img_path & letters & _ & _ & Hshape & ->).
    unfold trial_result in Hrun. cbn zeta in Hrun.
    destruct (decide (cancelled (hd Env.silent envs))) as [Hesc|Hesc].
    + injection Hrun as <- <-. exists []. cbn [State.results].
      rewrite app_nil_r. repeat split; try done.
      * simpl. lia.
      * intros _. by rewrite env_at_0.
    + apply IH in Hrun as (new & Hres & Hlen & Hrows & Hstop).
      cbn [State.results] in Hres.
      eexists (_ :: new). split; [by rewrite Hres, <- app_assoc|].
      split; [simpl; lia|]. split.
      * intros [|k] row Hk.
        -- injection Hk as <-. exists trial. split; [done|].
           rewrite Nat.add_0_r, env_at_0. split; [done|]. by exists letters.
        -- destruct (Hrows k row Hk) as (trial' & Htrial' & Hrow).
           exists trial'. split; [done|].
           by rewrite Nat.add_succ_r, env_at_S.
      * cbn [length]. intros Hlt. rewrite env_at_S. apply Hstop. lia.
Qed.

(** A run gets to the closing screen when the source left after the 71
    draws of the trial list is ample for the 40 trials. *)
Lemma session_results_returns r g :
  ample 40 (drop 71 g) -> exists rows, session_results r g = Some rows.
Proof.
  intros Hample. unfold session_results.
  destruct (generate_trials_design g) as (trials & g1 & Hgen & Hperm).
  rewrite Hgen. apply generate_trials_rest in Hgen as ->.
  destruct (trial_loop_returns (Run.exp_info r) (Run.bgImages r) trials 1
              (Run.envs r) State.initial (drop 71 g)) as (st & g2 & ->).
  { by rewrite Hperm. }
  by eexists.
Qed.

Lemma row_of_not_escape exp_info i trial env row :
  row_of exp_info i trial env row ->
  match recorded_response (Env.stimulus env) with
  | Some (key, rt) =>
      (key = "z" \/ key = "m") /\ (key, rt) ∈ presses (Env.stimulus env)
  | None => True
  end.
Proof.
  intros [Hesc _]. unfold cancelled in Hesc.
  destruct (recorded_response (Env.stimulus env)) as [[key rt]|] eqn:Hrec;
    [|done].
  destruct (recorded_response_pressed _ _ Hrec) as [Hkey Hin].
  cbn [fst] in Hkey. split; [|done]. unfold response_keys in Hkey.
  apply elem_of_cons in Hkey as [->|Hkey]; [by left|].
  apply elem_of_cons in Hkey as [->|Hkey]; [by right|].
  apply list_elem_of_singleton in Hkey as ->. by destruct Hesc.
Qed.

(** X13: in a session, the record at position [k] belongs to the trial
    at position [k]: it carries the trial number [k + 1], the trial's
    load, background type and target flag (as 0 or 1), and the
    participant and session of the run.  (The loop comes to its end on
    every source that is ample for the trials.) *)
Theorem session_rows_aligned exp_info bgImages trials envs g :
  (forall st g',
     trial_loop exp_info bgImages 1 trials envs State.initial g
       = Some (st, g') ->
     length (State.results st) <= length trials
     /\ forall k row, State.results st !! k = Some row ->
          exists trial, trials !! k = Some trial
            /\ Row.trial_index row = k + 1
            /\ Row.load row = Trial.load trial
            /\ Row.background_type row = Trial.background_type trial
            /\ Row.target_present row
               = (if Trial.target_present trial then 1 else 0)
            /\ Row.participant row = ExpInfo.Participant exp_info
            /\ Row.session row = ExpInfo.Session exp_info)
  /\ (ample (length trials) g ->
      exists st g',
        trial_loop exp_info bgImages 1 trials envs State.initial g
        = Some (st, g')).
Proof.
  split; [|apply trial_loop_returns].
  intros st g' (new & Hres & Hlen & Hrows & _)%trial_loop_rows.
  simpl in Hres. subst new. split; [done|].
  intros k row Hk.
  destruct (Hrows k row Hk) as (trial & Htrial & _ & letters & _ & ->).
  exists trial. split; [done|]. cbn. repeat split. lia.
Qed.

Lemma session_rows_aligned_witness :
  exists st g',
    trial_loop (ExpInfo.mk "P01" "1") ∅ 1
      [Trial.mk "high" "ai" true; Trial.mk "low" "paper" false]
      [] State.initial (seq 0 26) = Some (st, g')
    /\ length (State.results st) <= 2.
Proof.
  destruct (session_rows_aligned (ExpInfo.mk "P01" "1") ∅
              [Trial.mk "high" "ai" true; Trial.mk "low" "paper" false]
              [] (seq 0 26)) as [Hrows Hreturns].
  destruct Hreturns as (st & g' & Hrun).
  { split; [by vm_compute|simpl; lia]. }
  exists st, g'. split; [exact Hrun|exact (proj1 (Hrows st g' Hrun))].
Defined.

(** X14: the response fields of every record of a session are
    consistent: the key is "z", "m" or empty (never the cancel key or
    any other key); [rt] is empty exactly when the key is, and otherwise
    is the time stamp of a press of that key in the trial's response
    window; [correct] is 0 or 1, and 1 exactly when the key agrees with
    the target flag of the record.  (The loop comes to its end on every
    source that is ample for the trials.) *)
Theorem session_rows_response exp_info bgImages trials envs g :
  (forall st g',
     trial_loop exp_info bgImages 1 trials envs State.initial g
       = Some (st, g') ->
     forall k row, State.results st !! k = Some row ->
       Row.response_key row ∈ ["z"; "m"; ""]
       /\ (Row.response_key row = "" <-> Row.rt row = VStr "")
       /\ (forall rt, Row.rt row = VFloat rt ->
             (Row.response_key row, rt)
               ∈ presses (Env.stimulus (env_at envs k)))
       /\ (Row.correct row = 0 \/ Row.correct row = 1)
       /\ (Row.correct row = 1
           <-> (Row.target_present row = 1 /\ Row.response_key row = "z")
               \/ (Row.target_present row = 0 /\ Row.response_key row = "m")))
  /\ (ample (length trials) g ->
      exists st g',
        trial_loop exp_info bgImages 1 trials envs State.initial g
        = Some (st, g')).
Proof.
  split; [|apply trial_loop_returns].
  intros st g' (new & Hres & Hlen & Hrows & _)%trial_loop_rows.
  simpl in Hres. subst new. intros k row Hk.
  destruct (Hrows k row Hk) as (trial & Htrial & Hrow).
  pose proof (row_of_not_escape _ _ _ _ _ Hrow) as Hkey.
  destruct Hrow as (_ & letters & _ & ->). unfold trial_row. cbn.
  destruct (recorded_response (Env.stimulus (env_at envs k)))
    as [[key rt]|]; cbn.
  - destruct Hkey as [[-> | ->] Hin];
      destruct (Trial.target_present trial); cbn;
      repeat case_bool_decide; try done;
      (split; [repeat first [apply list_elem_of_here
                            |apply list_elem_of_further]|]);
      (split; [done|]); (split; [by intros ? [= <-]|]); (split; [auto|]);
      intuition congruence.
  - split; [repeat first [apply list_elem_of_here|apply list_elem_of_further]|].
    split; [done|]. split; [done|]. split; [by left|].
    destruct (Trial.target_present trial); intuition congruence.
Qed.

Lemma session_rows_response_witness :
  exists st g',
    trial_loop (ExpInfo.mk "P01" "1") ∅ 1
      [Trial.mk "high" "ai" true; Trial.mk "low" "paper" false]
      [Env.mk [] [Tick.mk 0.1 [("m", 0.1%Q)]]] State.initial (seq 0 26)
      = Some (st, g')
    /\ forall k row, State.results st !! k = Some row ->
         Row.response_key row ∈ ["z"; "m"; ""].
Proof.
  destruct (session_rows_response (ExpInfo.mk "P01" "1") ∅
              [Trial.mk "high" "ai" true; Trial.mk "low" "paper" false]
              [Env.mk [] [Tick.mk 0.1 [("m", 0.1%Q)]]] (seq 0 26))
    as [Hrows Hreturns].
  destruct Hreturns as (st & g' & Hrun).
  { split; [by vm_compute|simpl; lia]. }
  exists st, g'. split; [exact Hrun|].
  intros k row Hk. exact (proj1 (Hrows st g' Hrun k row Hk)).
Defined.

(** X15: the letter string logged in every record of a session matches
    the condition logged with it: six characters; no target when the
    record's target flag is 0; when it is 1, the target once under a
    high load and six times under load "low".  (The loop comes to its
    end on every source that is ample for the trials.) *)
Theorem session_rows_letters exp_info bgImages trials envs g :
  (forall st g',
     trial_loop exp_info bgImages 1 trials envs State.initial g
       = Some (st, g') ->
     forall k row, State.results st !! k = Some row ->
       String.length (Row.letters row) = 6
       /\ count target_letter (Row.letters row)
          = if decide (Row.target_present row = 1)
            then (if decide (Row.load row = "low") then 6 else 1)
            else 0)
  /\ (ample (length trials) g ->
      exists st g',
        trial_loop exp_info bgImages 1 trials envs State.initial g
        = Some (st, g')).
Proof.
  split; [|apply trial_loop_returns].
  intros st g' (new & Hres & Hlen & Hrows & _)%trial_loop_rows.
  simpl in Hres. subst new. intros k row Hk.
  destruct (Hrows k row Hk) as (trial & Htrial & _ & letters & Hshape & ->).
  unfold trial_row. cbn [Row.letters Row.target_present Row.load].
  rewrite iter_str_length. unfold count.
  destruct Hshape as [letter Hlow _ Hl Hiter | chosen Hhigh _ Hx Hlen' Hperm].
  - rewrite Hiter, count_replicate, length_replicate. split; [done|].
    rewrite (decide_True (P := Trial.load trial = "low")) by done.
    destruct (Trial.target_present trial).
    + by rewrite !decide_True.
    + by rewrite decide_False, (decide_False (P := 0 = 1)).
  - rewrite Hperm, (decide_False (P := Trial.load trial = "low")) by done.
    destruct (Trial.target_present trial).
    + split; [simpl; lia|]. rewrite filter_cons_True by done.
      rewrite (decide_True (P := 1 = 1)) by done.
      cbn [length]. by rewrite count_absent.
    + split; [done|]. rewrite count_absent by done.
      by rewrite (decide_False (P := 0 = 1)).
Qed.

Lemma session_rows_letters_witness :
  exists st g',
    trial_loop (ExpInfo.mk "P01" "1") ∅ 1
      [Trial.mk "high" "ai" true; Trial.mk "low" "paper" true]
      [] State.initial (seq 0 26) = Some (st, g')
    /\ forall k row, State.results st !! k = Some row ->
         String.length (Row.letters row) = 6.
Proof.
  destruct (session_rows_letters (ExpInfo.mk "P01" "1") ∅
              [Trial.mk "high" "ai" true; Trial.mk "low" "paper" true]
              [] (seq 0 26)) as [Hrows Hreturns].
  destruct Hreturns as (st & g' & Hrun).
  { split; [by vm_compute|simpl; lia]. }
  exists st, g'. split; [exact Hrun|].
  intros k row Hk. exact (proj1 (Hrows st g' Hrun k row Hk)).
Defined.

(** X16: the loop only appends: the records held before it starts are
    kept unchanged and in place; it adds one record for each trial
    before the first cancelled trial and none from there on.  (The loop
    comes to its end on every source that is ample for the trials.) *)
Theorem trial_loop_appends exp_info bgImages i trials envs st g :
  (forall st' g',
     trial_loop exp_info bgImages i trials envs st g = Some (st', g') ->
     exists new,
       State.results st' = State.results st ++ new
       /\ length new <= length trials
       /\ (forall k, k < length new -> ~ cancelled (env_at envs k))
       /\ (length new < length trials ->
           cancelled (env_at envs (length new))))
  /\ (ample (length trials) g ->
      exists st' g',
        trial_loop exp_info bgImages i trials envs st g = Some (st', g')).
Proof.
  split; [|apply trial_loop_returns].
  intros st' g' (new & Hres & Hlen & Hrows & Hstop)%trial_loop_rows.
  exists new. repeat split; try done.
  intros k Hk. destruct (lookup_lt_is_Some_2 new k Hk) as [row Hrow].
  by destruct (Hrows k row Hrow) as (trial & _ & Hnot & _).
Qed.

Lemma trial_loop_appends_witness :
  exists st' g' new,
    trial_loop (ExpInfo.mk "P01" "1") ∅ 1
      [Trial.mk "high" "ai" true; Trial.mk "low" "paper" false]
      [] State.initial (seq 0 26) = Some (st', g')
    /\ State.results st' = State.results State.initial ++ new
    /\ length new <= 2.
Proof.
  destruct (trial_loop_appends (ExpInfo.mk "P01" "1") ∅ 1
              [Trial.mk "high" "ai" true; Trial.mk "low" "paper" false]
              [] State.initial (seq 0 26)) as [Hrows Hreturns].
  destruct Hreturns as (st' & g' & Hrun).
  { split; [by vm_compute|simpl; lia]. }
  destruct (Hrows st' g' Hrun) as (new & Hres & Hlen & _).
  exists st', g', new. split; [exact Hrun|]. split; [exact Hres|exact Hlen].
Defined.

(** X17: a run in which none of the 40 trials is cancelled ends its
    trial loop with 40 records, and the conditions logged in them are
    counterbalanced like the trial list: 5 records in each (load,
    background type) cell, 3 with the target flag set and 2 without.
    (The trial loop comes to its end when the source left after the 71
    draws of the trial list is ample for the 40 trials.) *)
Theorem full_session_records r g :
  (forall k, k < 40 -> ~ cancelled (env_at (Run.envs r) k)) ->
  (forall rows,
     session_results r g = Some rows ->
     length rows = 40
     /\ Forall (fun load =>
          Forall (fun bg_type =>
            cell_size load bg_type (row_trial <$> rows) = 5
            /\ cell_count load bg_type true (row_trial <$> rows) = 3
            /\ cell_count load bg_type false (row_trial <$> rows) = 2)
            backgroundTypes) loads)
  /\ (ample 40 (drop 71 g) -> exists rows, session_results r g = Some rows).
Proof.
  intros Hnone. split; [|apply session_results_returns].
  intros rows0. unfold session_results.
  destruct (generate_trials_design g) as (trials & g1 & -> & Hperm).
  assert (Hlen40 : length trials = 40) by (by rewrite Hperm).
  destruct (trial_loop (Run.exp_info r) (Run.bgImages r) 1 trials
              (Run.envs r) State.initial g1) as [[st g2]|] eqn:Hrun; [|done].
  intros [= <-].
  apply trial_loop_rows in Hrun as (new & Hres & Hlen & Hrows & Hstop).
  simpl in Hres. subst new. set (rows := State.results st) in *.
  assert (Hfull : length rows = 40).
  { destruct (decide (length rows < length trials)) as [Hlt|Hge]; [|lia].
    destruct (Hnone (length rows)); [lia|by apply Hstop]. }
  split; [done|].
  assert (Hsame : row_trial <$> rows = trials).
  { apply (list_eq_same_length _ _ 40); [done|by rewrite length_fmap|].
    intros k t1 t2 _ Hk1 Hk2. rewrite list_lookup_fmap in Hk1.
    destruct (rows !! k) as [row|] eqn:Hrow; [|done].
    injection Hk1 as <-.
    destruct (Hrows k row Hrow) as (trial & Htrial & _ & letters & _ & ->).
    assert (trial = t2) as <- by congruence.
    unfold row_trial, trial_row. cbn. by destruct trial as [l b []]. }
  rewrite Hsame.
  assert (Hsize : forall l b, cell_size l b trials = cell_size l b design).
  { intros l b. unfold cell_size. by rewrite Hperm. }
  assert (Hcount : forall l b p,
             cell_count l b p trials = cell_count l b p design).
  { intros l b p. unfold cell_count. by rewrite Hperm. }
  repeat constructor; rewrite ?Hsize, ?Hcount; by vm_compute.
Qed.

Lemma full_session_records_witness :
  exists rows,
    session_results
      (Run.mk true (ExpInfo.mk "P01" "1") ∅ "20260101_120000" ["space"] [])
      (seq 0 600) = Some rows
    /\ length rows = 40
    /\ Forall (fun load =>
         Forall (fun bg_type =>
           cell_size load bg_type (row_trial <$> rows) = 5
           /\ cell_count load bg_type true (row_trial <$> rows) = 3
           /\ cell_count load bg_type false (row_trial <$> rows) = 2)
           backgroundTypes) loads.
Proof.
  destruct (full_session_records
              (Run.mk true (ExpInfo.mk "P01" "1") ∅ "20260101_120000"
                      ["space"] [])
              (seq 0 600)) as [Hrecords Hreturns].
  { intros k _. unfold cancelled, env_at. simpl. discriminate. }
  destruct Hreturns as (rows & Hrows).
  { split; [by vm_compute|]. rewrite length_drop, length_seq. lia. }
  exists rows. split; [exact Hrows|exact (Hrecords rows Hrows)].
Defined.

(** ** What a single trial shows and logs *)

(** X18: what happens while the fixation cross is shown does not reach
    the data: two runs of a trial that differ only in the fixation phase
    (its clock readings, its key presses, a cancel key included) take the
    same branch and leave the same records, stimulus objects, key buffer
    and random source. *)
Theorem fixation_phase_ignored exp_info bgImages i trial env1 env2 st g :
  Env.stimulus env1 = Env.stimulus env2 ->
  (forall fl st1 g',
     trial_body exp_info bgImages i trial env1 st g = Some ((fl, st1), g') ->
     exists st2,
       trial_body exp_info bgImages i trial env2 st g = Some ((fl, st2), g')
       /\ State.results st1 = State.results st2
       /\ State.display st1 = State.display st2
       /\ State.key_buffer st1 = State.key_buffer st2)
  /\ (can_build (Trial.load trial) (Trial.target_present trial) (drop 2 g) ->
      exists fl st1 g',
        trial_body exp_info bgImages i trial env1 st g = Some ((fl, st1), g')).
Proof.
  intros Hstim. split.
  - intros fl st1 g'.
    destruct (trial_body_run bgImages trial g)
      as (jitter & img_path & c & _ & _ & _ & Hrun).
    rewrite !Hrun.
    destruct (make_letter_string _ _ (drop c g)) as [[letters g1]|]; [|done].
    unfold trial_result. cbn zeta.
    assert (Hc : cancelled env1 <-> cancelled env2)
      by (unfold cancelled; by rewrite Hstim).
    rewrite Hstim.
    destruct (decide (cancelled env1)) as [H1|H1],
             (decide (cancelled env2)) as [H2|H2]; try tauto;
      intros [= <- <- <-]; by eexists.
  - intros ([fl st1] & g' & Hrun)%(trial_body_returns exp_info bgImages i
                                     trial env1 st).
    by exists fl, st1, g'.
Qed.

Lemma fixation_phase_ignored_witness :
  exists fl st1 st2 g',
    trial_body (ExpInfo.mk "P01" "1") ∅ 1 (Trial.mk "high" "ai" true)
      (Env.mk [Tick.mk 0 [("escape", 0%Q)]; Tick.mk 1 [("z", 1%Q)]]
              [Tick.mk 0.1 [("m", 0.1%Q)]])
      State.initial [5; 1; 4; 1; 5; 9; 2; 6] = Some ((fl, st1), g')
    /\ trial_body (ExpInfo.mk "P01" "1") ∅ 1 (Trial.mk "high" "ai" true)
         (Env.mk [] [Tick.mk 0.1 [("m", 0.1%Q)]])
         State.initial [5; 1; 4; 1; 5; 9; 2; 6] = Some ((fl, st2), g')
    /\ State.results st1 = State.results st2
    /\ State.display st1 = State.display st2
    /\ State.key_buffer st1 = State.key_buffer st2.
Proof.
  destruct (fixation_phase_ignored (ExpInfo.mk "P01" "1") ∅ 1
              (Trial.mk "high" "ai" true)
              (Env.mk [Tick.mk 0 [("escape", 0%Q)]; Tick.mk 1 [("z", 1%Q)]]
                      [Tick.mk 0.1 [("m", 0.1%Q)]])
              (Env.mk [] [Tick.mk 0.1 [("m", 0.1%Q)]])
              State.initial [5; 1; 4; 1; 5; 9; 2; 6] eq_refl)
    as [Hsame Hreturns].
  destruct Hreturns as (fl & st1 & g' & Hrun).
  { right. right. unfold five_letters. vm_compute. lia. }
  destruct (Hsame fl st1 g' Hrun) as (st2 & Hrun2 & Heq).
  exists fl, st1, st2, g'. split; [exact Hrun|]. split; [exact Hrun2|exact Heq].
Defined.

(** X19: the letter string a trial shows is the one it logs: on every
    frame of a scored trial, a letter stimulus that is drawn carries the
    text of the [letters] field of the trial's record. *)
Theorem letters_shown_are_logged exp_info bgImages i trial env st g :
  ~ cancelled env ->
  (forall r g',
     trial_body exp_info bgImages i trial env st g = Some (r, g') ->
     exists st' row frames,
       r = (Continue, st')
       /\ State.results st' = State.results st ++ [row]
       /\ State.screen st' = State.screen st ++ [frames]
       /\ Forall (fun f => forall text,
                    LetterStim text ∈ Frame.drawn f -> text = Row.letters row)
                 frames)
  /\ (can_build (Trial.load trial) (Trial.target_present trial) (drop 2 g) ->
      exists r g', trial_body exp_info bgImages i trial env st g = Some (r, g')).
Proof.
  intros Hnot. split; [|apply trial_body_returns].
  intros r g' (jitter & img_path & letters & _ & _ & _ & ->)%trial_body_inv.
  unfold trial_result. cbn zeta.
  rewrite decide_False by done.
  eexists _, _, _. split; [reflexivity|].
  split; [reflexivity|]. split; [reflexivity|].
  cbn [trial_row Row.letters]. apply Forall_app. split.
  - eapply Forall_impl; [apply fixation_loop_frames|].
    intros f -> text Htext. simpl in Htext.
    apply list_elem_of_singleton in Htext. discriminate.
  - assert (Hbg : forall d text, LetterStim text ∉ draw_background d img_path).
    { intros d text. destruct img_path; simpl.
      - intros Hin. apply list_elem_of_singleton in Hin. discriminate.
      - apply not_elem_of_nil. }
    apply present_frames; cbn [Frame.drawn Display.letter_stim].
    + intros text [Hin|Hin]%elem_of_app; [by apply Hbg in Hin|].
      apply list_elem_of_singleton in Hin. congruence.
    + intros text Hin. by apply Hbg in Hin.
Qed.

Lemma letters_shown_are_logged_witness :
  exists st' g' row frames,
    trial_body (ExpInfo.mk "P01" "1") ∅ 1 (Trial.mk "high" "ai" true)
      (Env.mk [] [Tick.mk 0.1 [("m", 0.1%Q)]]) State.initial
      [5; 1; 4; 1; 5; 9; 2; 6] = Some ((Continue, st'), g')
    /\ State.results st' = State.results State.initial ++ [row]
    /\ State.screen st' = State.screen State.initial ++ [frames]
    /\ Forall (fun f => forall text,
                 LetterStim text ∈ Frame.drawn f -> text = Row.letters row)
              frames.
Proof.
  destruct (letters_shown_are_logged (ExpInfo.mk "P01" "1") ∅ 1
              (Trial.mk "high" "ai" true)
              (Env.mk [] [Tick.mk 0.1 [("m", 0.1%Q)]]) State.initial
              [5; 1; 4; 1; 5; 9; 2; 6]) as [Hshown Hreturns].
  { unfold cancelled. simpl. discriminate. }
  destruct Hreturns as (r & g' & Hrun).
  { right. right. unfold five_letters. vm_compute. lia. }
  destruct (Hshown r g' Hrun) as (st' & row & frames & -> & Hrow).
  exists st', g', row, frames. split; [exact Hrun|exact Hrow].
Defined.

Lemma fixation_loop_count fixation_time color ticks : forall buffer,
  (fixation_loop fixation_time color ticks buffer).1
  = replicate (leading_before fixation_time ticks)
              (Frame.mk color [FixationCross]).
Proof.
  induction ticks as [|t ticks IH]; intros buffer;
    cbn [fixation_loop leading_before]; [done|].
  destruct (Qltb (Tick.clock t) fixation_time); [|done].
  specialize (IH (buffer ++ Tick.pressed t)).
  destruct (fixation_loop fixation_time color ticks (buffer ++ Tick.pressed t)).
  cbn [fst] in *. by rewrite IH.
Qed.

(** X20: every trial opens with the fixation cross alone, on the frames
    of the leading fixation ticks: on all those read before 3.5 s, and on
    none from the first reading at or after 5.5 s on; the frames that
    follow never show the cross.  (The trial gets to its response window
    whenever its letter string can be built from the draws left after
    the jitter and the image.) *)
Theorem fixation_duration exp_info bgImages i trial env st g :
  (forall fl st' g',
     trial_body exp_info bgImages i trial env st g = Some ((fl, st'), g') ->
     exists n rest,
       State.screen st'
       = State.screen st
           ++ [replicate n (Frame.mk (Display.win_color (State.display st))
                                     [FixationCross]) ++ rest]
       /\ leading_before 3.5 (Env.fixation env) <= n
       /\ n <= leading_before 5.5 (Env.fixation env)
       /\ Forall (fun f => FixationCross ∉ Frame.drawn f) rest)
  /\ (can_build (Trial.load trial) (Trial.target_present trial) (drop 2 g) ->
      exists fl st' g',
        trial_body exp_info bgImages i trial env st g = Some ((fl, st'), g')).
Proof.
  split.
  2:{ intros ([fl st'] & g' & Hrun)%(trial_body_returns exp_info bgImages i
                                       trial env st).
      by exists fl, st', g'. }
  intros fl st' g'
    (jitter & img_path & letters & [Hlo Hhi] & _ & _ & Hrun)%trial_body_inv.
  unfold trial_result in Hrun. cbn zeta in Hrun.
  rewrite fixation_loop_count in Hrun.
  assert (Hrest : forall d, Forall (fun f => FixationCross ∉ Frame.drawn f)
                     (Poll.frames (present d img_path (Env.stimulus env)))).
  { intros d.
    assert (Hbg : FixationCross ∉ draw_background d img_path).
    { destruct img_path; simpl.
      - intros Hin. apply list_elem_of_singleton in Hin. discriminate.
      - apply not_elem_of_nil. }
    apply present_frames; cbn [Frame.drawn].
    - intros [Hin|Hin]%elem_of_app; [done|].
      apply list_elem_of_singleton in Hin. discriminate.
    - done. }
  destruct (decide (cancelled env)); injection Hrun as -> ->;
    eexists (leading_before jitter (Env.fixation env)), _;
    (split; [reflexivity|]);
    (split; [by apply leading_before_mono|]);
    (split; [by apply leading_before_mono|]); apply Hrest.
Qed.

Lemma fixation_duration_witness :
  exists fl st' g' n,
    trial_body (ExpInfo.mk "P01" "1") ∅ 1 (Trial.mk "high" "ai" true)
      (Env.mk [Tick.mk 1 []; Tick.mk 3 []; Tick.mk 6 []] [])
      State.initial [5; 1; 4; 1; 5; 9; 2; 6] = Some ((fl, st'), g')
    /\ 2 <= n <= 2
    /\ exists rest,
         State.screen st'
         = [replicate n (Frame.mk [0; 0; 0]%Z [FixationCross]) ++ rest].
Proof.
  destruct (fixation_duration (ExpInfo.mk "P01" "1") ∅ 1
              (Trial.mk "high" "ai" true)
              (Env.mk [Tick.mk 1 []; Tick.mk 3 []; Tick.mk 6 []] [])
              State.initial [5; 1; 4; 1; 5; 9; 2; 6]) as [Hcross Hreturns].
  destruct Hreturns as (fl & st' & g' & Hrun).
  { right. right. unfold five_letters. vm_compute. lia. }
  destruct (Hcross fl st' g' Hrun) as (n & rest & Hscreen & Hlo & Hhi & _).
  exists fl, st', g', n. split; [exact Hrun|].
  split; [split; [exact Hlo|exact Hhi]|]. exists rest. exact Hscreen.
Defined.

(** ** The output file name *)

Lemma append_length a b :
  String.length (a +:+ b) = String.length a + String.length b.
Proof. induction a as [|c a IH]; simpl; [done|]. by rewrite IH. Qed.

Lemma append_inj a1 a2 b1 b2 :
  String.length a1 = String.length a2 ->
  a1 +:+ b1 = a2 +:+ b2 -> a1 = a2 /\ b1 = b2.
Proof.
  revert a2. induction a1 as [|c a1 IH]; intros [|c2 a2] Hlen Heq;
    simplify_eq/=; [done|].
  destruct (IH a2 Hlen H) as [-> ->]. done.
Qed.

(** X21: two runs whose time stamps have the same length (the format
    %Y%m%d_%H%M%S always gives 15 characters) write to the same path only
    if they have the same participant and the same time stamp. *)
Theorem filepath_inj r1 r2 :
  String.length (Run.timestamp r1) = String.length (Run.timestamp r2) ->
  filepath r1 = filepath r2 ->
  ExpInfo.Participant (Run.exp_info r1) = ExpInfo.Participant (Run.exp_info r2)
  /\ Run.timestamp r1 = Run.timestamp r2.
Proof.
  intros Hts Heq. unfold filepath, path_join in Heq.
  apply append_inj in Heq as [_ Heq]; [|done].
  apply append_inj in Heq as [_ Heq]; [|done].
  apply append_inj in Heq as [_ Heq]; [|done].
  assert (Hlen : String.length (ExpInfo.Participant (Run.exp_info r1))
                 = String.length (ExpInfo.Participant (Run.exp_info r2))).
  { apply (f_equal String.length) in Heq.
    rewrite !append_length in Heq. lia. }
  apply append_inj in Heq as [HP Heq]; [|done].
  apply append_inj in Heq as [_ Heq]; [|done].
  by apply append_inj in Heq as [Ht _].
Qed.

Lemma filepath_inj_witness :
  ExpInfo.Participant
    (Run.exp_info (Run.mk true (ExpInfo.mk "P01" "1") ∅ "20260101_120000" [] []))
  = ExpInfo.Participant
      (Run.exp_info (Run.mk false (ExpInfo.mk "P01" "2") ∅ "20260101_120000"
                            ["space"] []))
  /\ Run.timestamp (Run.mk true (ExpInfo.mk "P01" "1") ∅ "20260101_120000" [] [])
     = Run.timestamp (Run.mk false (ExpInfo.mk "P01" "2") ∅ "20260101_120000"
                             ["space"] []).
Proof.
  apply (filepath_inj
           (Run.mk true (ExpInfo.mk "P01" "1") ∅ "20260101_120000" [] [])
           (Run.mk false (ExpInfo.mk "P01" "2") ∅ "20260101_120000"
                   ["space"] [])); reflexivity.
Defined.
